(** * OscapScannerLocal: the local scan supervisor of scap-workbench

    A shallow embedding of [src/OscapScannerLocal.cpp].  The scanner object,
    the file system it touches and the observable effects it performs
    (emitted Qt signals, process control, file access) are threaded
    explicitly through a small state monad; the behaviour of everything the
    scanner cannot decide itself (the environment variable, the capability
    probe, the external [oscap] process, the names handed out for temporary
    files) is read from an [Environment] record.

    Conventions.  A [QProcess] is given by the finite sequence of poll ticks
    on which [waitForFinished] times out before it reports the exit, so
    every loop below is structurally recursive.  Opening a file is taken to
    succeed.  The removal of temporary files and directories when their
    owners go out of scope is not part of the model. *)

From Stdlib Require Import ZArith Ascii String List Bool DecimalString.
From stdpp Require Import base option list strings gmap.
Import ListNotations.

Local Open Scope string_scope.
Local Open Scope list_scope.
Local Open Scope Z_scope.

(** ** Data *)

(** [QByteArray]: a sequence of bytes. *)
Abbreviation QByteArray := (list Byte.byte).

(** Modelled from the spec: the enumeration of scanner modes is declared in
    a header that is not part of the translated file.  The code names
    [SM_OFFLINE_REMEDIATION] and [SM_SCAN_ONLINE_REMEDIATION]; [SM_SCAN] is
    the remaining mode of the specification, an evaluation without online
    remediation. *)
Inductive ScannerMode :=
| SM_SCAN
| SM_SCAN_ONLINE_REMEDIATION
| SM_OFFLINE_REMEDIATION.

(** [==] on scanner modes. *)
Definition ScannerMode_eqb (a b : ScannerMode) : bool :=
  match a, b with
  | SM_SCAN, SM_SCAN
  | SM_SCAN_ONLINE_REMEDIATION, SM_SCAN_ONLINE_REMEDIATION
  | SM_OFFLINE_REMEDIATION, SM_OFFLINE_REMEDIATION => true
  | _, _ => false
  end.

(** Modelled from the spec: [ScanningSession] is declared outside the
    translated file; these are its read-only queries used by the scanner. *)
Record ScanningSession := {
  getOpenedFilePath : string;
  hasTailoring : bool;
  getTailoringFilePath : string;
  getUserTailoringFilePath : string;
  getProfile : string;
}.

(** [LocalOscapSession]: the names of the three temporary artifact files. *)
Record LocalOscapSession := {
  mResultFile : string;
  mReportFile : string;
  mArfFile : string;
}.

(** The members of [OscapScannerLocal] (own and inherited) the code reads or
    writes.  [mCapabilities] keeps the text last handed to
    [mCapabilities.parse]; the parser itself is outside the file. *)
Record Scanner := mkScanner {
  mDryRun : bool;
  mScannerMode : ScannerMode;
  mCancelRequested : bool;
  mSession : ScanningSession;
  mLocalSession : LocalOscapSession;
  mARFForRemediation : QByteArray;
  mCapabilities : option string;
  mResults : QByteArray;
  mReport : QByteArray;
  mARF : QByteArray;
}.

Definition set_mCancelRequested (b : bool) (o : Scanner) : Scanner :=
  mkScanner (mDryRun o) (mScannerMode o) b (mSession o) (mLocalSession o)
            (mARFForRemediation o) (mCapabilities o)
            (mResults o) (mReport o) (mARF o).

Definition set_mCapabilities (c : option string) (o : Scanner) : Scanner :=
  mkScanner (mDryRun o) (mScannerMode o) (mCancelRequested o) (mSession o)
            (mLocalSession o) (mARFForRemediation o) c
            (mResults o) (mReport o) (mARF o).

Definition set_mResults (b : QByteArray) (o : Scanner) : Scanner :=
  mkScanner (mDryRun o) (mScannerMode o) (mCancelRequested o) (mSession o)
            (mLocalSession o) (mARFForRemediation o) (mCapabilities o)
            b (mReport o) (mARF o).

Definition set_mReport (b : QByteArray) (o : Scanner) : Scanner :=
  mkScanner (mDryRun o) (mScannerMode o) (mCancelRequested o) (mSession o)
            (mLocalSession o) (mARFForRemediation o) (mCapabilities o)
            (mResults o) b (mARF o).

Definition set_mARF (b : QByteArray) (o : Scanner) : Scanner :=
  mkScanner (mDryRun o) (mScannerMode o) (mCancelRequested o) (mSession o)
            (mLocalSession o) (mARFForRemediation o) (mCapabilities o)
            (mResults o) (mReport o) b.

(** Observable effects, in the order they happen. *)
Inductive Event :=
| InfoMessage (msg : string)                 (* emit infoMessage(msg) *)
| ErrorMessage (msg : string)                (* emit errorMessage(msg) *)
| Completion (canceled : bool)               (* signalCompletion(canceled) *)
| SyncRun (command : string) (args : list string)    (* SyncProcess::run *)
| CheckPrerequisites
| ProcStart (program : string) (args : list string) (workingDir : string)
| WaitForStarted
| WaitForFinished (msecs : Z) (finished : bool)
| ProcKill
| ReadStdOut
| WatchStdErr
| ProcessEvents
| FileTruncate (path : string)               (* open(WriteOnly); close *)
| FileWrite (path : string) (content : QByteArray)
| FileReadAll (path : string).

(** The behaviour of one external process started through [QProcess]:
    whether it reports [Running] after [waitForStarted], the poll ticks on
    which [waitForFinished] times out (each tick tells whether a cancel
    request is delivered while the event queue is pumped on that tick),
    after which [waitForFinished] reports the exit, the exit code, and what
    the process has done to the file system by then. *)
Record Process := {
  proc_running : bool;
  proc_ticks : list bool;
  proc_exitCode : Z;
  proc_writes : string -> list string ->
                gmap string QByteArray -> gmap string QByteArray;
}.

(** Everything the scanner reads from outside itself. *)
Record Environment := {
  env_PKEXEC_OSCAP_PATH : option string;  (* SCAP_WORKBENCH_PKEXEC_OSCAP_PATH *)
  probe_exitCode : Z;
  probe_diagnosticInfo : string;
  probe_stdOut : string;
  prerequisites_met : bool;
  tmp_inputARFFile : string;
  tmp_workingDir : string;
  oscap_process : Process;          (* the scan started by evaluate *)
  role_process : Process;           (* the run of xccdf generate fix *)
}.

(** Build-time configuration: the preprocessor macros the file uses, whose
    values are fixed when the program is configured. *)
Record BuildConfig := {
  SCAP_WORKBENCH_LOCAL_OSCAP_PATH : string;
  SCAP_WORKBENCH_LOCAL_PKEXEC_OSCAP_PATH : string;
  SCAP_WORKBENCH_LOCAL_NICE_FOUND : bool;
  SCAP_WORKBENCH_LOCAL_NICE_PATH : string;
  SCAP_WORKBENCH_LOCAL_OSCAP_NICENESS : Z;
}.

(** The argument builders inherited from the scanner base class; they are
    member functions, so they see the scanner object. *)
Class ArgumentBuilder := {
  buildEvaluationArgs :
    Scanner -> string -> string -> string -> string -> string ->
    bool -> bool -> list string;
  buildOfflineRemediationArgs :
    Scanner -> string -> string -> string -> string -> bool -> list string;
}.

(** ** The effect monad *)

Record State := mkState {
  self : Scanner;
  files : gmap string QByteArray;
  log : list Event;
}.

Definition M (A : Type) : Type := State -> A * State.

Definition ret {A} (a : A) : M A := fun s => (a, s).
Definition bind {A B} (c : M A) (k : A -> M B) : M B :=
  fun s => k (fst (c s)) (snd (c s)).

Declare Scope scanner_scope.
Delimit Scope scanner_scope with scanner.
Notation "x <- c ;; k" := (bind c (fun x => k))
  (at level 100, c at next level, right associativity) : scanner_scope.
Notation "c ;; k" := (bind c (fun _ => k))
  (at level 100, right associativity) : scanner_scope.
Local Open Scope scanner_scope.

Definition exec {A} (c : M A) (s : State) : State := snd (c s).
Definition eval {A} (c : M A) (s : State) : A := fst (c s).

Definition member {A} (f : Scanner -> A) : M A := fun s => (f (self s), s).
Definition update (f : Scanner -> Scanner) : M unit :=
  fun s => (tt, mkState (f (self s)) (files s) (log s)).
Definition emit (e : Event) : M unit :=
  fun s => (tt, mkState (self s) (files s) (log s ++ [e])).
Definition when (b : bool) (c : M unit) : M unit := if b then c else ret tt.

(** The outcome of a call that may throw [std::runtime_error]. *)
Inductive Outcome (A : Type) :=
| Returned (a : A)
| Thrown (what : string).
Arguments Returned {A} a.
Arguments Thrown {A} what.

(** ** Qt helpers *)

(** [QObject::tr] with no translation catalogue installed. *)
Definition tr (s : string) : string := s.

(** [QString::arg]: substitute the place marker [%1]. *)
Fixpoint arg (fmt a : string) : string :=
  match fmt with
  | String "%"%char (String "1"%char rest) => (a ++ arg rest a)%string
  | String c rest => String c (arg rest a)
  | EmptyString => EmptyString
  end.

Definition newline : string := String (ascii_of_nat 10) EmptyString.

(** [QString::number(int)]. *)
Definition number (n : Z) : string := NilZero.string_of_int (Z.to_int n).

(** [QStringList::removeOne]: drop the first occurrence, if any. *)
Fixpoint removeOne (x : string) (l : list string) : list string :=
  match l with
  | [] => []
  | y :: l' => if String.eqb y x then l' else y :: removeOne x l'
  end.

(** File access.  Opening a [QFile] write-only creates or truncates it. *)
Definition contents (fs : gmap string QByteArray) (path : string) : QByteArray :=
  default [] (fs !! path).

Definition fileTruncate (path : string) : M unit :=
  fun s => (tt, mkState (self s) (<[path := []]> (files s))
                        (log s ++ [FileTruncate path])).

Definition fileWrite (path : string) (content : QByteArray) : M unit :=
  fun s => (tt, mkState (self s) (<[path := content]> (files s))
                        (log s ++ [FileWrite path content])).

Definition fileReadAll (path : string) : M QByteArray :=
  fun s => (contents (files s) path,
            mkState (self s) (files s) (log s ++ [FileReadAll path])).

(** What the external process has written once it is reported finished. *)
Definition processExited (p : Process) (program : string) (args : list string)
  : M unit :=
  fun s => (tt, mkState (self s)
                        (if proc_running p
                         then proc_writes p program args (files s)
                         else files s)
                        (log s)).

(** Modelled from the spec: members inherited from the scanner base class,
    which is outside the translated file.  Completion is signalled to the
    collaborators with the flag it is given; draining the output channels
    of the process is recorded as such. *)
Definition signalCompletion (canceled : bool) : M unit := emit (Completion canceled).
Definition readStdOut : M unit := emit ReadStdOut.
Definition watchStdErr : M unit := emit WatchStdErr.

(** ** The scanner *)

Section OscapScannerLocal.

Context `{ArgumentBuilder}.
Variable cfg : BuildConfig.
Variable env : Environment.

(** [qgetenv]: the value of the variable, empty when it is not set. *)
Definition qgetenv (v : option string) : string := default "" v.

Definition isEmpty (s : string) : bool := String.eqb s "".

Definition getPkexecOscapPath : string :=
  let path := qgetenv (env_PKEXEC_OSCAP_PATH env) in
  if isEmpty path
  then SCAP_WORKBENCH_LOCAL_PKEXEC_OSCAP_PATH cfg
  else path.

(** [getOscapProgram(args)]: the program and the argument vector as the
    call leaves it. *)
Definition getOscapProgram (args : list string) : string * list string :=
  if SCAP_WORKBENCH_LOCAL_NICE_FOUND cfg then
    let args := getPkexecOscapPath :: args in
    let args := number (SCAP_WORKBENCH_LOCAL_OSCAP_NICENESS cfg) :: args in
    let args := "-n" :: args in
    (SCAP_WORKBENCH_LOCAL_NICE_PATH cfg, args)
  else
    (getPkexecOscapPath, args).

Definition probeFailureMessage : string :=
  arg (tr ("Failed to query capabilities of oscap on local machine."
           ++ newline ++ "Diagnostic info:" ++ newline ++ "%1")%string)
      (probe_diagnosticInfo env).

Definition fillInCapabilities : M (Outcome unit) :=
  emit (SyncRun (SCAP_WORKBENCH_LOCAL_OSCAP_PATH cfg) ["-V"]) ;;
  if negb (probe_exitCode env =? 0) then
    let message := probeFailureMessage in
    update (set_mCancelRequested true) ;;
    c <- member mCancelRequested ;;
    signalCompletion c ;;
    ret (Thrown message)
  else
    update (set_mCapabilities (Some (probe_stdOut env))) ;;
    ret (Returned tt).

(** Modelled from the spec: the prerequisite validation is an external
    collaborator; its verdict is read from the environment. *)
Definition checkPrerequisites : M bool :=
  emit CheckPrerequisites ;;
  ret (prerequisites_met env).

(** Modelled from the spec: pumping the event queue (line 163) is where a
    cancel request of the user becomes visible; the request sets the flag,
    which nothing in the loop clears again. *)
Definition processEvents (cancelPosted : bool) : M unit :=
  emit ProcessEvents ;;
  when cancelPosted (update (set_mCancelRequested true)).

(** The poll loop of [evaluate] (lines 153-171); [pollInterval] is the
    local variable, widened once the flag is seen. *)
Fixpoint pollLoop (pollInterval : Z) (ticks : list bool) : M unit :=
  match ticks with
  | [] => emit (WaitForFinished pollInterval true)
  | cancelPosted :: rest =>
      emit (WaitForFinished pollInterval false) ;;
      readStdOut ;;
      watchStdErr ;;
      processEvents cancelPosted ;;
      c <- member mCancelRequested ;;
      if c then
        emit (InfoMessage (tr "Cancellation was requested! Terminating scanning...")) ;;
        emit ProcKill ;;
        pollLoop 1000 rest
      else
        pollLoop pollInterval rest
  end.

Definition launchFailureMessage (program : string) : string :=
  arg (tr "Failed to start local scanning process '%1'. Perhaps the executable was not found?")
      program.

(** The argument vector [evaluate] assembles before program resolution
    (lines 119-141); both builders are called with their default
    [ignoreCapabilities = false]. *)
Definition evaluateArgs : M (list string) :=
  o <- member id ;;
  if ScannerMode_eqb (mScannerMode o) SM_OFFLINE_REMEDIATION then
    fileWrite (tmp_inputARFFile env) (mARFForRemediation o) ;;
    ret (buildOfflineRemediationArgs o (tmp_inputARFFile env)
           (mResultFile (mLocalSession o))
           (mReportFile (mLocalSession o))
           (mArfFile (mLocalSession o))
           false)
  else
    ret (buildEvaluationArgs o (getOpenedFilePath (mSession o))
           (if hasTailoring (mSession o)
            then getTailoringFilePath (mSession o) else "")
           (mResultFile (mLocalSession o))
           (mReportFile (mLocalSession o))
           (mArfFile (mLocalSession o))
           (ScannerMode_eqb (mScannerMode o) SM_SCAN_ONLINE_REMEDIATION)
           false).

(** What follows the poll loop (lines 173-211): collecting the results or
    not, and signalling completion. *)
Definition finishEvaluation : M unit :=
  c <- member mCancelRequested ;;
  (if negb c then
     if proc_exitCode (oscap_process env) =? 1 then
       watchStdErr ;;
       emit (ErrorMessage (tr "There was an error during evaluation! Exit code of the 'oscap' process was 1.")) ;;
       update (set_mCancelRequested true)
     else
       readStdOut ;;
       watchStdErr ;;
       emit (InfoMessage (tr "The oscap tool has finished. Reading results...")) ;;
       ls <- member mLocalSession ;;
       r <- fileReadAll (mResultFile ls) ;;
       update (set_mResults r) ;;
       r <- fileReadAll (mReportFile ls) ;;
       update (set_mReport r) ;;
       r <- fileReadAll (mArfFile ls) ;;
       update (set_mARF r) ;;
       emit (InfoMessage (tr "Processing has been finished!"))
   else
     emit (InfoMessage (tr "Scanning cancelled!"))) ;;
  c <- member mCancelRequested ;;
  signalCompletion c.

(** From [Starting the oscap process...] to [Processing...] (lines
    109-155): assemble the arguments, resolve the program, start the
    process.  Returns the program and the argument vector the process was
    started with. *)
Definition launchProcess : M (string * list string) :=
  emit (InfoMessage (tr "Starting the oscap process...")) ;;
  args <- evaluateArgs ;;
  let resolved := getOscapProgram args in
  let program := fst resolved in
  let args := snd resolved in
  emit (ProcStart program args (tmp_workingDir env)) ;;
  emit WaitForStarted ;;
  when (negb (proc_running (oscap_process env)))
       (emit (ErrorMessage (launchFailureMessage program)) ;;
        update (set_mCancelRequested true)) ;;
  emit (InfoMessage (tr "Processing...")) ;;
  ret (program, args).

Definition evaluate : M unit :=
  dry <- member mDryRun ;;
  if dry then
    c <- member mCancelRequested ;;
    signalCompletion c
  else
    emit (InfoMessage (tr "Querying capabilities...")) ;;
    r <- fillInCapabilities ;;
    match r with
    | Thrown what => emit (ErrorMessage what)
    | Returned _ =>
        ok <- checkPrerequisites ;;
        if negb ok then
          update (set_mCancelRequested true) ;;
          c <- member mCancelRequested ;;
          signalCompletion c
        else
          started <- launchProcess ;;
          pollLoop 100 (proc_ticks (oscap_process env)) ;;
          processExited (oscap_process env) (fst started) (snd started) ;;
          finishEvaluation
    end.

Definition getCommandLineArgs : M (list string) :=
  o <- member id ;;
  args <-
    (if ScannerMode_eqb (mScannerMode o) SM_OFFLINE_REMEDIATION then
       fileWrite (tmp_inputARFFile env) (mARFForRemediation o) ;;
       ret ("oscap" ::
            buildOfflineRemediationArgs o (tmp_inputARFFile env)
              "/tmp/xccdf-results.xml"
              "/tmp/report.html"
              "/tmp/arf.xml"
              true)
     else
       ret ("oscap" ::
            buildEvaluationArgs o (getOpenedFilePath (mSession o))
              (getUserTailoringFilePath (mSession o))
              "/tmp/xccdf-results.xml"
              "/tmp/report.html"
              "/tmp/arf.xml"
              (ScannerMode_eqb (mScannerMode o) SM_SCAN_ONLINE_REMEDIATION)
              true)) ;;
  ret (removeOne "--progress" args).

(** The poll loop of the role generation (lines 326-332): no event
    pumping, no kill. *)
Fixpoint roleLoop (pollInterval : Z) (ticks : list bool) : M unit :=
  match ticks with
  | [] => emit (WaitForFinished pollInterval true)
  | _ :: rest =>
      emit (WaitForFinished pollInterval false) ;;
      watchStdErr ;;
      roleLoop pollInterval rest
  end.

(** The argument vector of the role generation before program resolution
    (lines 300-313), one [append] after the other. *)
Definition roleArgs (fix_type roleFile profileId arfFile : string) : list string :=
  ([] ++ ["xccdf"] ++ ["generate"] ++ ["fix"]
      ++ ["--fix-type"] ++ [fix_type]
      ++ ["--output"] ++ [roleFile]
      ++ ["--result-id"] ++ [profileId]
      ++ [arfFile])%list.

Definition createRemediationRoleAfterEvaluate (fix_type roleFile : string) : M unit :=
  profileId <- member (fun o => getProfile (mSession o)) ;;
  if isEmpty profileId then
    emit (ErrorMessage (tr "Unable to get profile ID for the passed check. It is impossible to get the result ID without the profile ID, so no remediation role can be generated."))
  else
    fileTruncate roleFile ;;
    arfFile <- member (fun o => mArfFile (mLocalSession o)) ;;
    let args := roleArgs fix_type roleFile profileId arfFile in
    let resolved := getOscapProgram args in
    let program := fst resolved in
    let args := snd resolved in
    emit (ProcStart program args (tmp_workingDir env)) ;;
    emit WaitForStarted ;;
    emit (InfoMessage (tr "Processing...")) ;;
    roleLoop 100 (proc_ticks (role_process env)) ;;
    processExited (role_process env) program args ;;
    when (proc_exitCode (role_process env) =? 1)
         (watchStdErr ;;
          emit (ErrorMessage (tr "There was an error in course of remediation role generation! Exit code of the 'oscap' process was 1."))).

(** The state [evaluate] is in once the capabilities are known and the
    prerequisites have been checked. *)
Definition probed (s : State) : State :=
  mkState (set_mCapabilities (Some (probe_stdOut env)) (self s)) (files s)
          (log s ++ [InfoMessage (tr "Querying capabilities...");
                     SyncRun (SCAP_WORKBENCH_LOCAL_OSCAP_PATH cfg) ["-V"];
                     CheckPrerequisites]).

End OscapScannerLocal.

(** ** Sample instances for concrete runs *)

Definition capabilitiesKnown (o : Scanner) : bool :=
  match mCapabilities o with Some _ => true | None => false end.

(** Modelled from the spec: the argument builders belong to the scanner base
    class, which is outside the translated file, and the specification
    gives their parameter lists only.  The theorems below hold for every
    builder; this instance serves to run the code on concrete inputs.  It
    puts every parameter behind the [oscap] option it feeds, leaves out the
    tailoring option when the tailoring path is empty, and adds the
    capability-gated progress option when gating is disabled or the
    capabilities are known. *)
Definition sampleBuilder : ArgumentBuilder := {|
  buildEvaluationArgs o inputFile tailoringFile resultFile reportFile arfFile
                      onlineRemediation ignoreCapabilities :=
    (["xccdf"; "eval"]
       ++ (if isEmpty tailoringFile then []
           else ["--tailoring-file"; tailoringFile])
       ++ ["--results"; resultFile; "--results-arf"; arfFile;
           "--report"; reportFile]
       ++ (if ignoreCapabilities || capabilitiesKnown o
           then ["--progress"] else [])
       ++ (if onlineRemediation then ["--remediate"] else [])
       ++ [inputFile])%list;
  buildOfflineRemediationArgs o inputFile resultFile reportFile arfFile
                              ignoreCapabilities :=
    (["xccdf"; "remediate"]
       ++ ["--results"; resultFile; "--results-arf"; arfFile;
           "--report"; reportFile]
       ++ (if ignoreCapabilities || capabilitiesKnown o
           then ["--progress"] else [])
       ++ [inputFile])%list;
|}.

Definition sampleConfig (nice : bool) : BuildConfig := {|
  SCAP_WORKBENCH_LOCAL_OSCAP_PATH := "/usr/bin/oscap";
  SCAP_WORKBENCH_LOCAL_PKEXEC_OSCAP_PATH :=
    "/usr/libexec/scap-workbench-pkexec-oscap.sh";
  SCAP_WORKBENCH_LOCAL_NICE_FOUND := nice;
  SCAP_WORKBENCH_LOCAL_NICE_PATH := "/usr/bin/nice";
  SCAP_WORKBENCH_LOCAL_OSCAP_NICENESS := 10;
|}.

Definition sampleSession (profile : string) : ScanningSession := {|
  getOpenedFilePath := "/scan/doc.xml";
  hasTailoring := true;
  getTailoringFilePath := "/tmp/qt_temp.tailoring.xml";
  getUserTailoringFilePath := "";
  getProfile := profile;
|}.

Definition sampleLocalSession : LocalOscapSession := {|
  mResultFile := "/tmp/qt_temp.result";
  mReportFile := "/tmp/qt_temp.report";
  mArfFile := "/tmp/qt_temp.arf";
|}.

Definition sampleScanner (dry : bool) (mode : ScannerMode) (profile : string)
  : Scanner := {|
  mDryRun := dry;
  mScannerMode := mode;
  mCancelRequested := false;
  mSession := sampleSession profile;
  mLocalSession := sampleLocalSession;
  mARFForRemediation := [];
  mCapabilities := None;
  mResults := [];
  mReport := [];
  mARF := [];
|}.

Definition sampleState (dry : bool) (mode : ScannerMode) (profile : string)
  : State := {|
  self := sampleScanner dry mode profile;
  files := ∅;
  log := [];
|}.

(** A process that leaves the file system alone. *)
Definition sampleProcess (running : bool) (ticks : list bool) (code : Z)
  : Process := {|
  proc_running := running;
  proc_ticks := ticks;
  proc_exitCode := code;
  proc_writes := fun _ _ fs => fs;
|}.

Definition sampleEnvironment (var : option string) (probe : Z)
           (scan : Process) : Environment := {|
  env_PKEXEC_OSCAP_PATH := var;
  probe_exitCode := probe;
  probe_diagnosticInfo := "oscap: command not found";
  probe_stdOut := "OpenSCAP command line tool (oscap) 1.2.17";
  prerequisites_met := true;
  tmp_inputARFFile := "/tmp/qt_temp.input";
  tmp_workingDir := "/tmp/scap-workbench.wd";
  oscap_process := scan;
  role_process := sampleProcess true [false] 0;
|}.

(** A scan that is polled twice and exits with code 2. *)
Definition successEnvironment : Environment :=
  sampleEnvironment None 0 (sampleProcess true [false; false] 2).

(** The mid-scan cancel scenario: the cancel request arrives on the first
    poll tick, the wait after the kill times out once more, and the
    process then exits with code 0. *)
Definition cancelEnvironment : Environment :=
  sampleEnvironment None 0 (sampleProcess true [true; false] 0).

(** The same with one quiet tick before the request. *)
Definition lateCancelEnvironment : Environment :=
  sampleEnvironment None 0 (sampleProcess true [false; true; false] 0).


(** The override variable is set, to the empty string. *)
Definition emptyOverrideEnvironment : Environment :=
  sampleEnvironment (Some "") 0 (sampleProcess true [] 0).

Definition scanState : State :=
  sampleState false SM_SCAN "xccdf_org_profile_1".


Definition noProfileState : State :=
  sampleState false SM_SCAN "".

(** ** Reading the log *)

(** The events a run appended to the log. *)
Definition emitted (s s' : State) : list Event :=
  drop (length (log s)) (log s').

Definition occurrences (p : Event -> bool) (evs : list Event) : nat :=
  length (List.filter p evs).

Definition isCompletion (e : Event) : bool :=
  match e with Completion _ => true | _ => false end.

Definition isProcStart (e : Event) : bool :=
  match e with ProcStart _ _ _ => true | _ => false end.

(** Any process at all: the synchronous probe or a [QProcess]. *)
Definition isSpawn (e : Event) : bool :=
  match e with ProcStart _ _ _ | SyncRun _ _ => true | _ => false end.

Definition isKill (e : Event) : bool :=
  match e with ProcKill => true | _ => false end.

Definition isFileRead (e : Event) : bool :=
  match e with FileReadAll _ => true | _ => false end.

(** The signals of the scanner, and among them the plain notices. *)
Definition isSignal (e : Event) : bool :=
  match e with InfoMessage _ | ErrorMessage _ | Completion _ => true | _ => false end.

Definition isNotice (e : Event) : bool :=
  match e with InfoMessage _ | ErrorMessage _ => true | _ => false end.

(** The events the poll loop of [evaluate] can produce. *)
Definition isPollEvent (e : Event) : bool :=
  match e with
  | WaitForFinished _ _ | ReadStdOut | WatchStdErr | ProcessEvents
  | InfoMessage _ | ProcKill => true
  | _ => false
  end.

(** The events the poll loop of the role generation can produce. *)
Definition isRolePollEvent (e : Event) : bool :=
  match e with
  | WaitForFinished _ _ | WatchStdErr => true
  | _ => false
  end.

(** How often the poll loop reaches [process.kill()]: once on every tick on
    which the flag is set after the event queue has been pumped. *)
Fixpoint killsIssued (cancelRequested : bool) (ticks : list bool) : nat :=
  match ticks with
  | [] => 0
  | cancelPosted :: rest =>
      let c := cancelRequested || cancelPosted in
      ((if c then 1 else 0) + killsIssued c rest)%nat
  end.

(** The three result buffers. *)
Definition buffers (o : Scanner) : QByteArray * QByteArray * QByteArray :=
  (mResults o, mReport o, mARF o).

(** ** The claims as worded, for comparison with the code *)

(** The elevated-invocation path as the specification words it: the
    override when the variable is set, the configured default otherwise. *)
Definition claimedPkexecOscapPath (cfg : BuildConfig) (env : Environment) : string :=
  match env_PKEXEC_OSCAP_PATH env with
  | Some path => path
  | None => SCAP_WORKBENCH_LOCAL_PKEXEC_OSCAP_PATH cfg
  end.

Definition claimedOscapProgram (cfg : BuildConfig) (env : Environment)
           (args : list string) : string * list string :=
  if SCAP_WORKBENCH_LOCAL_NICE_FOUND cfg then
    (SCAP_WORKBENCH_LOCAL_NICE_PATH cfg,
     "-n" :: number (SCAP_WORKBENCH_LOCAL_OSCAP_NICENESS cfg)
          :: claimedPkexecOscapPath cfg env :: args)
  else
    (claimedPkexecOscapPath cfg env, args).

(** The builder call of a real run ([evaluateArgs]) with the output paths
    and the gating flag left open. *)
Definition invocationShape `{ArgumentBuilder} (env : Environment) (o : Scanner)
           (resultFile reportFile arfFile : string) (ignoreCapabilities : bool)
  : list string :=
  if ScannerMode_eqb (mScannerMode o) SM_OFFLINE_REMEDIATION then
    buildOfflineRemediationArgs o (tmp_inputARFFile env)
      resultFile reportFile arfFile ignoreCapabilities
  else
    buildEvaluationArgs o (getOpenedFilePath (mSession o))
      (if hasTailoring (mSession o)
       then getTailoringFilePath (mSession o) else "")
      resultFile reportFile arfFile
      (ScannerMode_eqb (mScannerMode o) SM_SCAN_ONLINE_REMEDIATION)
      ignoreCapabilities.

(** The preview as the specification words it: the invocation of a real
    run, pointed at the placeholder paths, with gating disabled and the
    progress flag removed, behind the tool name. *)
Definition claimedCommandLineArgs `{ArgumentBuilder} (env : Environment)
           (o : Scanner) : list string :=
  removeOne "--progress"
    ("oscap" :: invocationShape env o
                  "/tmp/xccdf-results.xml" "/tmp/report.html" "/tmp/arf.xml"
                  true).

(** ** The session constructor *)

(** [LocalOscapSession::setFilenameToTempFile] (lines 48-52): opening the
    temporary file creates it, empty, under the name the system hands out;
    the call is recorded like the creating open of a [QFile]. *)
Definition setFilenameToTempFile (name : string) : M unit :=
  fileTruncate name.

(** The loop of the constructor over its array of temporary files. *)
Fixpoint forEachTempFile (temp_files : list string) : M unit :=
  match temp_files with
  | [] => ret tt
  | temp_file :: rest =>
      setFilenameToTempFile temp_file ;;
      forEachTempFile rest
  end.

(** [LocalOscapSession::LocalOscapSession] (lines 36-46), given the names
    the system hands out for the archive, report and result files, in the
    order of the array [{&mArfFile, &mReportFile, &mResultFile}].  The
    local [TemporaryDir] of the constructor is created and removed again
    within it and leaves no trace here. *)
Definition LocalOscapSession_new (arfName reportName resultName : string)
  : M LocalOscapSession :=
  let temp_files := [arfName; reportName; resultName] in
  forEachTempFile temp_files ;;
  ret {| mResultFile := resultName;
         mReportFile := reportName;
         mArfFile := arfName |}.

(** ** Traces *)

Definition isWait (e : Event) : bool :=
  match e with WaitForFinished _ _ => true | _ => false end.

Definition isError (e : Event) : bool :=
  match e with ErrorMessage _ => true | _ => false end.

Definition isSyncRun (e : Event) : bool :=
  match e with SyncRun _ _ => true | _ => false end.

Definition isPump (e : Event) : bool :=
  match e with ProcessEvents => true | _ => false end.

(** The scanner changing a file itself. *)
Definition isFileChange (e : Event) : bool :=
  match e with FileTruncate _ | FileWrite _ _ => true | _ => false end.

(** The events of the poll loop of [evaluate], as a function of the flag on
    entry and of the ticks. *)
Fixpoint pollTrace (pollInterval : Z) (cancelRequested : bool)
         (ticks : list bool) : list Event :=
  match ticks with
  | [] => [WaitForFinished pollInterval true]
  | cancelPosted :: rest =>
      [WaitForFinished pollInterval false; ReadStdOut; WatchStdErr;
       ProcessEvents]
      ++ (if cancelRequested || cancelPosted then
            [InfoMessage "Cancellation was requested! Terminating scanning...";
             ProcKill]
            ++ pollTrace 1000 true rest
          else
            pollTrace pollInterval false rest)
  end.

(** The events of the poll loop of the role generation. *)
Definition rolePollTrace (pollInterval : Z) (ticks : list bool) : list Event :=
  concat (List.map (fun _ => [WaitForFinished pollInterval false; WatchStdErr])
                   ticks)
  ++ [WaitForFinished pollInterval true].

Section Traces.

Context `{ArgumentBuilder}.
Variable cfg : BuildConfig.
Variable env : Environment.

Definition isOffline (o : Scanner) : bool :=
  ScannerMode_eqb (mScannerMode o) SM_OFFLINE_REMEDIATION.

(** What [evaluate] hands to [getOscapProgram] (lines 122-141). *)
Definition launchArgs (o : Scanner) : list string :=
  if isOffline o then
    buildOfflineRemediationArgs o (tmp_inputARFFile env)
      (mResultFile (mLocalSession o)) (mReportFile (mLocalSession o))
      (mArfFile (mLocalSession o)) false
  else
    buildEvaluationArgs o (getOpenedFilePath (mSession o))
      (if hasTailoring (mSession o)
       then getTailoringFilePath (mSession o) else "")
      (mResultFile (mLocalSession o)) (mReportFile (mLocalSession o))
      (mArfFile (mLocalSession o))
      (ScannerMode_eqb (mScannerMode o) SM_SCAN_ONLINE_REMEDIATION)
      false.

(** The program and argument vector the scan is started with. *)
Definition launched (o : Scanner) : string * list string :=
  getOscapProgram cfg env (launchArgs o).

(** The file system the scan is started on, and the one it leaves. *)
Definition launchFiles (o : Scanner) (fs : gmap string QByteArray)
  : gmap string QByteArray :=
  if isOffline o
  then <[tmp_inputARFFile env := mARFForRemediation o]> fs
  else fs.

Definition exitFiles (o : Scanner) (fs : gmap string QByteArray)
  : gmap string QByteArray :=
  if proc_running (oscap_process env)
  then proc_writes (oscap_process env) (fst (launched o)) (snd (launched o))
                   (launchFiles o fs)
  else launchFiles o fs.

(** The events from [Starting the oscap process...] to [Processing...]. *)
Definition launchTrace (o : Scanner) : list Event :=
  [InfoMessage "Starting the oscap process..."]
  ++ (if isOffline o
      then [FileWrite (tmp_inputARFFile env) (mARFForRemediation o)]
      else [])
  ++ [ProcStart (fst (launched o)) (snd (launched o)) (tmp_workingDir env);
      WaitForStarted]
  ++ (if proc_running (oscap_process env) then []
      else [ErrorMessage (launchFailureMessage (fst (launched o)))])
  ++ [InfoMessage "Processing..."].

(** The flag when the poll loop is entered and when it is left. *)
Definition flagAtLaunch (o : Scanner) : bool :=
  mCancelRequested o || negb (proc_running (oscap_process env)).

Definition flagAtExit (o : Scanner) : bool :=
  flagAtLaunch o || existsb id (proc_ticks (oscap_process env)).

(** The events of a run up to the exit of the process. *)
Definition runTrace (o : Scanner) : list Event :=
  [InfoMessage "Querying capabilities...";
   SyncRun (SCAP_WORKBENCH_LOCAL_OSCAP_PATH cfg) ["-V"];
   CheckPrerequisites]
  ++ launchTrace o
  ++ pollTrace 100 (flagAtLaunch o) (proc_ticks (oscap_process env)).

(** The events after the exit of the process, and the scanner object the
    run leaves, given the scanner object [o] the run is started on (with
    the capabilities known) and the file system [fs] the process leaves. *)
Definition finishTrace (o : Scanner) : list Event :=
  if flagAtExit o then
    [InfoMessage "Scanning cancelled!"; Completion true]
  else if proc_exitCode (oscap_process env) =? 1 then
    [WatchStdErr;
     ErrorMessage "There was an error during evaluation! Exit code of the 'oscap' process was 1.";
     Completion true]
  else
    [ReadStdOut; WatchStdErr;
     InfoMessage "The oscap tool has finished. Reading results...";
     FileReadAll (mResultFile (mLocalSession o));
     FileReadAll (mReportFile (mLocalSession o));
     FileReadAll (mArfFile (mLocalSession o));
     InfoMessage "Processing has been finished!";
     Completion false].

Definition finishScanner (o : Scanner) (fs : gmap string QByteArray) : Scanner :=
  if flagAtExit o then
    set_mCancelRequested true o
  else if proc_exitCode (oscap_process env) =? 1 then
    set_mCancelRequested true o
  else
    set_mARF (contents fs (mArfFile (mLocalSession o)))
      (set_mReport (contents fs (mReportFile (mLocalSession o)))
         (set_mResults (contents fs (mResultFile (mLocalSession o)))
            (set_mCancelRequested false o))).

(** Whether [evaluate] gets as far as starting the scan. *)
Definition reachesLaunch (o : Scanner) : bool :=
  negb (mDryRun o) && (probe_exitCode env =? 0) && prerequisites_met env.

(** What the preview hands to [removeOne] after the tool name
    (lines 226-253). *)
Definition previewArgs (o : Scanner) : list string :=
  if isOffline o then
    buildOfflineRemediationArgs o (tmp_inputARFFile env)
      "/tmp/xccdf-results.xml" "/tmp/report.html" "/tmp/arf.xml" true
  else
    buildEvaluationArgs o (getOpenedFilePath (mSession o))
      (getUserTailoringFilePath (mSession o))
      "/tmp/xccdf-results.xml" "/tmp/report.html" "/tmp/arf.xml"
      (ScannerMode_eqb (mScannerMode o) SM_SCAN_ONLINE_REMEDIATION)
      true.

End Traces.

(** Further sample inputs. *)


(** The scan exits with code 1 after one poll tick. *)
Definition toolErrorEnvironment : Environment :=
  sampleEnvironment None 0 (sampleProcess true [false] 1).

(** The cancel request arrives on the second tick and the scan exits with
    code 1. *)
Definition cancelErrorEnvironment : Environment :=
  sampleEnvironment None 0 (sampleProcess true [false; true; false] 1).

(** The prerequisites are not met. *)
Definition prerequisiteFailureEnvironment : Environment := {|
  env_PKEXEC_OSCAP_PATH := None;
  probe_exitCode := 0;
  probe_diagnosticInfo := "";
  probe_stdOut := "OpenSCAP command line tool (oscap) 1.0.0";
  prerequisites_met := false;
  tmp_inputARFFile := "/tmp/qt_temp.input";
  tmp_workingDir := "/tmp/scap-workbench.wd";
  oscap_process := sampleProcess true [] 0;
  role_process := sampleProcess true [] 0;
|}.

(** The role generation fails to start; its exit code reads 0. *)
Definition roleLaunchFailureEnvironment : Environment := {|
  env_PKEXEC_OSCAP_PATH := None;
  probe_exitCode := 0;
  probe_diagnosticInfo := "";
  probe_stdOut := "";
  prerequisites_met := true;
  tmp_inputARFFile := "/tmp/qt_temp.input";
  tmp_workingDir := "/tmp/scap-workbench.wd";
  oscap_process := sampleProcess true [] 0;
  role_process := sampleProcess false [false; true] 0;
|}.

Definition offlineState : State :=
  sampleState false SM_OFFLINE_REMEDIATION "xccdf_org_profile_1".


(** ** Basic facts *)

Example removeOne_first_only :
  removeOne "--progress" ["eval"; "--progress"; "doc.xml"; "--progress"]
  = ["eval"; "doc.xml"; "--progress"].
Proof. reflexivity. Qed.

Example arg_marker :
  arg "Failed to start local scanning process '%1'." "/usr/bin/nice"
  = "Failed to start local scanning process '/usr/bin/nice'.".
Proof. reflexivity. Qed.

Example number_decimal : number 10 = "10" /\ number (-5) = "-5".
Proof. split; reflexivity. Qed.

Example killsIssued_scenario :
  killsIssued false [false; true; false; false] = 3%nat.
Proof. reflexivity. Qed.

Lemma emitted_app (s s' : State) (evs : list Event) :
  log s' = log s ++ evs -> emitted s s' = evs.
Proof.
  intros E. unfold emitted. rewrite E. apply drop_app_length.
Qed.

Lemma emitted_mkState (s : State) (o : Scanner)
      (fs : gmap string QByteArray) (evs : list Event) :
  emitted s (mkState o fs (log s ++ evs)) = evs.
Proof. now apply emitted_app. Qed.

Lemma occurrences_app (p : Event -> bool) (l k : list Event) :
  occurrences p (l ++ k) = (occurrences p l + occurrences p k)%nat.
Proof.
  unfold occurrences. rewrite List.filter_app. apply length_app.
Qed.

Lemma occurrences_none (p q : Event -> bool) (evs : list Event) :
  (forall e, q e = true -> p e = false) ->
  forallb q evs = true -> occurrences p evs = 0%nat.
Proof.
  intros Hpq. unfold occurrences.
  induction evs as [|e evs IH]; simpl; [reflexivity|].
  intros Hq. apply andb_prop in Hq as [He Hq].
  rewrite (Hpq e He). apply IH, Hq.
Qed.

Lemma occurrences_zero_filter (p : Event -> bool) (evs : list Event) :
  occurrences p evs = 0%nat -> List.filter p evs = [].
Proof. unfold occurrences. apply length_zero_iff_nil. Qed.

Lemma set_mCancelRequested_same (o : Scanner) :
  set_mCancelRequested (mCancelRequested o) o = o.
Proof. destruct o; reflexivity. Qed.

Lemma set_mCancelRequested_twice (a b : bool) (o : Scanner) :
  set_mCancelRequested a (set_mCancelRequested b o) = set_mCancelRequested a o.
Proof. reflexivity. Qed.

Lemma mCancelRequested_set (b : bool) (o : Scanner) :
  mCancelRequested (set_mCancelRequested b o) = b.
Proof. reflexivity. Qed.

Lemma killsIssued_set (ticks : list bool) :
  killsIssued true ticks = length ticks.
Proof.
  induction ticks as [|t ticks IH]; simpl; [reflexivity|].
  now rewrite IH.
Qed.

Lemma killsIssued_first (pre post : list bool) :
  existsb id pre = false ->
  killsIssued false (pre ++ true :: post) = S (length post).
Proof.
  induction pre as [|t pre IH]; simpl.
  - intros _. now rewrite killsIssued_set.
  - destruct t; simpl; [discriminate|]. exact IH.
Qed.

Lemma existsb_first (pre post : list bool) :
  existsb id (pre ++ true :: post) = true.
Proof.
  rewrite existsb_app. simpl. apply orb_true_r.
Qed.

(** ** The phases of a run *)

Section Phases.

Context `{ArgumentBuilder}.
Variable cfg : BuildConfig.
Variable env : Environment.

Lemma pollLoop_effect (ticks : list bool) :
  forall (pollInterval : Z) (s : State),
  exists evs,
    exec (pollLoop pollInterval ticks) s =
      mkState (set_mCancelRequested
                 (mCancelRequested (self s) || existsb id ticks) (self s))
              (files s) (log s ++ evs)
    /\ forallb isPollEvent evs = true
    /\ occurrences isKill evs = killsIssued (mCancelRequested (self s)) ticks.
Proof.
  induction ticks as [|t ticks IH]; intros i [o fs l].
  - exists [WaitForFinished i true]. simpl.
    rewrite orb_false_r, set_mCancelRequested_same. auto.
  - destruct o as [dry mode c sess ls arf caps r1 r2 r3].
    destruct c, t; cbn -[pollLoop].
    all: unfold exec, bind in *; cbn [pollLoop]; unfold bind; cbn.
    all: match goal with
         | |- context [pollLoop ?j _ ?st] =>
             destruct (IH j st) as (evs & E & P & K)
         end; cbn in E, K; rewrite E.

    all: eexists; split; [rewrite <- !app_assoc; reflexivity|].
    all: cbn; rewrite ?occurrences_app; cbn; rewrite ?P, ?K.
    all: try rewrite orb_true_l in *; auto.

Qed.


Lemma roleLoop_effect (ticks : list bool) :
  forall (pollInterval : Z) (s : State),
  exists evs,
    exec (roleLoop pollInterval ticks) s =
      mkState (self s) (files s) (log s ++ evs)
    /\ forallb isRolePollEvent evs = true.
Proof.
  induction ticks as [|t ticks IH]; intros i [o fs l].
  - exists [WaitForFinished i true]. auto.
  - unfold exec in *. cbn [roleLoop]. unfold bind. cbn.
    match goal with
    | |- context [roleLoop ?j _ ?st] => destruct (IH j st) as (evs & E & P)
    end.
    cbn in E. rewrite E.
    eexists; split; [rewrite <- !app_assoc; reflexivity|].
    cbn. exact P.
Qed.

Lemma evaluate_dry (s : State) :
  mDryRun (self s) = true ->
  exec (evaluate cfg env) s =
    mkState (self s) (files s)
            (log s ++ [Completion (mCancelRequested (self s))]).
Proof.
  intros Hdry. unfold exec, evaluate, bind, member. cbn. rewrite Hdry.
  reflexivity.
Qed.

Lemma evaluate_probe_failed (s : State) :
  mDryRun (self s) = false -> probe_exitCode env <> 0 ->
  exec (evaluate cfg env) s =
    mkState (set_mCancelRequested true (self s)) (files s)
            (log s ++ [InfoMessage (tr "Querying capabilities...");
                       SyncRun (SCAP_WORKBENCH_LOCAL_OSCAP_PATH cfg) ["-V"];
                       Completion true;
                       ErrorMessage (probeFailureMessage env)]).
Proof.
  intros Hdry Hprobe. apply Z.eqb_neq in Hprobe.
  unfold exec, evaluate, fillInCapabilities, bind, member. cbn.
  rewrite Hdry, Hprobe. cbn. rewrite <- !app_assoc. reflexivity.
Qed.

Lemma evaluate_prerequisites_failed (s : State) :
  mDryRun (self s) = false -> probe_exitCode env = 0 ->
  prerequisites_met env = false ->
  exec (evaluate cfg env) s =
    mkState (set_mCancelRequested true (self (probed cfg env s))) (files s)
            (log (probed cfg env s) ++ [Completion true]).
Proof.
  intros Hdry Hprobe Hpre.
  unfold exec, evaluate, fillInCapabilities, checkPrerequisites, bind, member.
  cbn. rewrite Hdry, Hprobe, Hpre. cbn. rewrite <- !app_assoc. reflexivity.
Qed.

Lemma evaluate_main (s : State) :
  mDryRun (self s) = false -> probe_exitCode env = 0 ->
  prerequisites_met env = true ->
  exec (evaluate cfg env) s =
    exec (finishEvaluation env)
      (exec (processExited (oscap_process env)
               (fst (eval (launchProcess cfg env) (probed cfg env s)))
               (snd (eval (launchProcess cfg env) (probed cfg env s))))
         (exec (pollLoop 100 (proc_ticks (oscap_process env)))
            (exec (launchProcess cfg env) (probed cfg env s)))).
Proof.
  intros Hdry Hprobe Hpre.
  unfold exec at 1. unfold evaluate, fillInCapabilities, checkPrerequisites.
  unfold bind at 1. unfold member at 1. cbn [fst snd]. rewrite Hdry.
  cbn -[launchProcess pollLoop finishEvaluation processExited].
  rewrite Hprobe, Hpre.
  cbn -[launchProcess pollLoop finishEvaluation processExited].
  unfold probed. rewrite <- !app_assoc. reflexivity.
Qed.


Lemma launchProcess_effect (s : State) :
  exists evs fs,
    exec (launchProcess cfg env) s =
      mkState (set_mCancelRequested
                 (mCancelRequested (self s)
                  || negb (proc_running (oscap_process env))) (self s))
              fs (log s ++ evs)
    /\ occurrences isProcStart evs = 1%nat
    /\ occurrences isCompletion evs = 0%nat
    /\ occurrences isFileRead evs = 0%nat
    /\ occurrences isKill evs = 0%nat.
Proof.
  destruct s as [o fs l].
  unfold exec, launchProcess, evaluateArgs, bind, member, when. cbn.
  destruct (ScannerMode_eqb (mScannerMode o) SM_OFFLINE_REMEDIATION);
    destruct (proc_running (oscap_process env)); cbn;
    rewrite ?orb_false_r, ?orb_true_r, ?set_mCancelRequested_same;
    eexists; eexists; (split; [rewrite <- !app_assoc; reflexivity|]);
    cbn; auto.
Qed.

Lemma finishEvaluation_cancelled (s : State) :
  mCancelRequested (self s) = true ->
  exec (finishEvaluation env) s =
    mkState (self s) (files s)
            (log s ++ [InfoMessage (tr "Scanning cancelled!"); Completion true]).
Proof.
  intros Hc. unfold exec, finishEvaluation, bind, member. cbn.
  rewrite Hc. cbn. rewrite Hc, <- !app_assoc. reflexivity.
Qed.

Lemma finishEvaluation_error (s : State) :
  mCancelRequested (self s) = false ->
  proc_exitCode (oscap_process env) = 1 ->
  exec (finishEvaluation env) s =
    mkState (set_mCancelRequested true (self s)) (files s)
            (log s ++ [WatchStdErr;
                       ErrorMessage (tr "There was an error during evaluation! Exit code of the 'oscap' process was 1.");
                       Completion true]).
Proof.
  intros Hc Hx. unfold exec, finishEvaluation, bind, member. cbn.
  rewrite Hc, Hx. cbn. rewrite <- !app_assoc. reflexivity.
Qed.

Lemma finishEvaluation_success (s : State) :
  mCancelRequested (self s) = false ->
  proc_exitCode (oscap_process env) <> 1 ->
  let ls := mLocalSession (self s) in
  exec (finishEvaluation env) s =
    mkState (set_mARF (contents (files s) (mArfFile ls))
               (set_mReport (contents (files s) (mReportFile ls))
                  (set_mResults (contents (files s) (mResultFile ls))
                     (self s))))
            (files s)
            (log s ++ [ReadStdOut; WatchStdErr;
                       InfoMessage (tr "The oscap tool has finished. Reading results...");
                       FileReadAll (mResultFile ls);
                       FileReadAll (mReportFile ls);
                       FileReadAll (mArfFile ls);
                       InfoMessage (tr "Processing has been finished!");
                       Completion false]).
Proof.
  intros Hc Hx ls. apply Z.eqb_neq in Hx.
  unfold exec, finishEvaluation, bind, member. cbn.
  rewrite Hc, Hx. cbn. rewrite Hc, <- !app_assoc. reflexivity.
Qed.

Lemma processExited_effect (p : Process) (program : string)
      (args : list string) (s : State) :
  exec (processExited p program args) s =
    mkState (self s)
            (if proc_running p then proc_writes p program args (files s)
             else files s)
            (log s).
Proof. reflexivity. Qed.

Lemma mCancelRequested_probed (s : State) :
  mCancelRequested (self (probed cfg env s)) = mCancelRequested (self s).
Proof. reflexivity. Qed.

(** The main path up to the point where the process has been reported
    finished: what has happened, and with which flag the run goes on. *)
Lemma evaluate_until_exit (s : State) :
  mDryRun (self s) = false -> probe_exitCode env = 0 ->
  prerequisites_met env = true ->
  exists evs fs,
    exec (evaluate cfg env) s =
      exec (finishEvaluation env)
        (mkState (set_mCancelRequested
                    ((mCancelRequested (self s)
                      || negb (proc_running (oscap_process env)))
                     || existsb id (proc_ticks (oscap_process env)))
                    (self (probed cfg env s)))
                 fs (log s ++ evs))
    /\ occurrences isProcStart evs = 1%nat
    /\ occurrences isCompletion evs = 0%nat
    /\ occurrences isFileRead evs = 0%nat
    /\ occurrences isKill evs =
         killsIssued (mCancelRequested (self s)
                      || negb (proc_running (oscap_process env)))
                     (proc_ticks (oscap_process env)).
Proof.
  intros Hdry Hprobe Hpre. rewrite (evaluate_main s Hdry Hprobe Hpre).
  destruct (launchProcess_effect (probed cfg env s))
    as (evs1 & fs1 & E1 & S1 & C1 & R1 & K1).
  rewrite E1.
  match goal with
  | |- context [exec (pollLoop ?i ?t) ?st] =>
      destruct (pollLoop_effect t i st) as (evs2 & E2 & P2 & K2)
  end.
  rewrite E2, processExited_effect. cbn [self files log] in K2 |- *.
  rewrite mCancelRequested_set, mCancelRequested_probed in K2.
  rewrite mCancelRequested_set, set_mCancelRequested_twice,
          mCancelRequested_probed.
  exists (drop (length (log s)) (log (probed cfg env s)) ++ evs1 ++ evs2).
  eexists. split.
  - apply f_equal. f_equal. unfold probed. cbn [log].
    rewrite drop_app_length, <- !app_assoc. reflexivity.
  - unfold probed. cbn [log]. rewrite drop_app_length.
    rewrite !occurrences_app. cbn. rewrite S1, C1, R1, K1, K2.
    rewrite (occurrences_none isProcStart isPollEvent evs2),
            (occurrences_none isCompletion isPollEvent evs2),
            (occurrences_none isFileRead isPollEvent evs2);
      auto; intros []; simpl; congruence.
Qed.

(** The events that end the role generation. *)
Lemma role_generation_effect (fix_type roleFile : string) (s : State) :
  getProfile (mSession (self s)) <> "" ->
  let resolved :=
    getOscapProgram cfg env
      (roleArgs fix_type roleFile (getProfile (mSession (self s)))
                (mArfFile (mLocalSession (self s)))) in
  exists evs,
    exec (createRemediationRoleAfterEvaluate cfg env fix_type roleFile) s =
      mkState (self s)
              (if proc_running (role_process env)
               then proc_writes (role_process env) (fst resolved) (snd resolved)
                                (<[roleFile := []]> (files s))
               else <[roleFile := []]> (files s))
              (log s ++
               FileTruncate roleFile
               :: ProcStart (fst resolved) (snd resolved) (tmp_workingDir env)
               :: WaitForStarted
               :: InfoMessage (tr "Processing...")
               :: evs ++
               (if proc_exitCode (role_process env) =? 1
                then [WatchStdErr;
                      ErrorMessage (tr "There was an error in course of remediation role generation! Exit code of the 'oscap' process was 1.")]
                else []))
    /\ forallb isRolePollEvent evs = true.
Proof.
  intros Hprofile resolved. apply String.eqb_neq in Hprofile.
  unfold exec at 1. unfold createRemediationRoleAfterEvaluate.
  unfold bind at 1. unfold member at 1 2. cbn [fst snd]. unfold isEmpty.
  rewrite Hprofile.
  unfold bind. cbn -[roleLoop roleArgs getOscapProgram Z.eqb].
  fold resolved.
  match goal with
  | |- context [roleLoop ?i ?t ?st] =>
      destruct (roleLoop_effect t i st) as (evs & E & P)
  end.
  unfold exec in E. rewrite E. cbn [self files log].
  exists evs. split; [|exact P].
  unfold when.
  destruct (proc_exitCode (role_process env) =? 1);
    cbn; rewrite <- !app_assoc; cbn; rewrite ?app_nil_r; reflexivity.
Qed.

End Phases.

(** ** The claims *)

Section Claims.

Context `{ArgumentBuilder}.
Variable cfg : BuildConfig.
Variable env : Environment.

(** C1. A run in which no cancellation was requested and whose scan
    process has exited is decided by the exit code alone.  Exit code 1:
    the run ends with the error notice and the completion signal carrying
    [true], the flag is set, no artifact file is read and the buffers are
    as before.  Any other exit code, zero or not: the three artifact files
    are read, in the order result, report, archive, each buffer holds the
    whole content of its file, the success notice is emitted and the
    completion signal carries [false]. *)
Theorem evaluate_exit_code_decides (s : State) :
  mDryRun (self s) = false ->
  probe_exitCode env = 0 ->
  prerequisites_met env = true ->
  proc_running (oscap_process env) = true ->
  mCancelRequested (self s) = false ->
  existsb id (proc_ticks (oscap_process env)) = false ->
  let s' := exec (evaluate cfg env) s in
  let ls := mLocalSession (self s) in
  if proc_exitCode (oscap_process env) =? 1 then
    (exists pre,
        emitted s s' =
          pre ++ [WatchStdErr;
                  ErrorMessage "There was an error during evaluation! Exit code of the 'oscap' process was 1.";
                  Completion true]
        /\ occurrences isFileRead pre = 0%nat)
    /\ mCancelRequested (self s') = true
    /\ buffers (self s') = buffers (self s)
  else
    (exists pre,
        emitted s s' =
          pre ++ [ReadStdOut; WatchStdErr;
                  InfoMessage "The oscap tool has finished. Reading results...";
                  FileReadAll (mResultFile ls);
                  FileReadAll (mReportFile ls);
                  FileReadAll (mArfFile ls);
                  InfoMessage "Processing has been finished!";
                  Completion false])
    /\ mCancelRequested (self s') = false
    /\ buffers (self s') =
         (contents (files s') (mResultFile ls),
          contents (files s') (mReportFile ls),
          contents (files s') (mArfFile ls)).
Proof.
  intros Hdry Hprobe Hpre Hrun Hc Hticks s' ls. subst s'.
  destruct (evaluate_until_exit cfg env s Hdry Hprobe Hpre)
    as (evs & fs & E & _ & _ & R & _).
  rewrite E, Hc, Hrun, Hticks. cbn [negb orb].
  destruct (Z.eqb_spec (proc_exitCode (oscap_process env)) 1) as [Hx|Hx].
  - rewrite finishEvaluation_error by (reflexivity || assumption).
    cbn [self files log]. repeat split.
    exists evs. split; [|exact R].
    apply emitted_app. cbn [log]. now rewrite <- app_assoc.
  - rewrite finishEvaluation_success by (reflexivity || assumption).
    cbn [self files log]. repeat split.
    exists evs. apply emitted_app. cbn [log]. now rewrite <- app_assoc.
Qed.

(** C2, as amended.  When the first cancel request is delivered on some
    poll tick and the process is reported finished [length post] ticks
    later, whatever its exit code, the run ends cancelled: the only
    completion signal carries [true], no artifact file is read, the buffers
    are as before, and [process.kill()] is reached once on the tick of the
    request and once more on every later tick, [1 + length post] times in
    all. *)
Theorem evaluate_cancel_during_poll (s : State) (pre post : list bool) :
  mDryRun (self s) = false ->
  probe_exitCode env = 0 ->
  prerequisites_met env = true ->
  proc_running (oscap_process env) = true ->
  mCancelRequested (self s) = false ->
  proc_ticks (oscap_process env) = pre ++ true :: post ->
  existsb id pre = false ->
  let s' := exec (evaluate cfg env) s in
  List.filter isCompletion (emitted s s') = [Completion true]
  /\ mCancelRequested (self s') = true
  /\ occurrences isFileRead (emitted s s') = 0%nat
  /\ buffers (self s') = buffers (self s)
  /\ occurrences isKill (emitted s s') = S (length post).
Proof.
  intros Hdry Hprobe Hpre Hrun Hc Hticks Hfirst s'. subst s'.
  destruct (evaluate_until_exit cfg env s Hdry Hprobe Hpre)
    as (evs & fs & E & _ & C & R & K).
  rewrite Hc, Hrun, Hticks in E, K. cbn [negb orb] in E, K.
  rewrite existsb_first in E. rewrite killsIssued_first in K by exact Hfirst.
  rewrite E, finishEvaluation_cancelled by reflexivity.
  cbn [self files log].
  rewrite (emitted_app s _ (evs ++ [InfoMessage (tr "Scanning cancelled!");
                                    Completion true]))
    by (cbn [log]; now rewrite <- app_assoc).
  rewrite List.filter_app, !occurrences_app, R, K.
  rewrite (occurrences_zero_filter _ _ C). cbn.
  repeat split; lia.
Qed.



(** C5, as amended.  [getOscapProgram] resolves the elevated-invocation path
    to the value of the environment variable when that value is not empty,
    and to the configured default when the variable is unset or empty.
    With the niceness wrapper configured, the argument vector becomes the
    niceness flag, the niceness level, the resolved path and then the
    original arguments, and the program is the wrapper; without it the
    argument vector is untouched and the program is the resolved path. *)
Theorem getOscapProgram_resolution (args : list string) :
  let path :=
    match env_PKEXEC_OSCAP_PATH env with
    | Some value =>
        if String.eqb value ""
        then SCAP_WORKBENCH_LOCAL_PKEXEC_OSCAP_PATH cfg
        else value
    | None => SCAP_WORKBENCH_LOCAL_PKEXEC_OSCAP_PATH cfg
    end in
  getOscapProgram cfg env args =
    if SCAP_WORKBENCH_LOCAL_NICE_FOUND cfg then
      (SCAP_WORKBENCH_LOCAL_NICE_PATH cfg,
       "-n" :: number (SCAP_WORKBENCH_LOCAL_OSCAP_NICENESS cfg)
            :: path :: args)
    else
      (path, args).
Proof.
  unfold getOscapProgram, getPkexecOscapPath, qgetenv, isEmpty.
  destruct (env_PKEXEC_OSCAP_PATH env) as [value|]; reflexivity.
Qed.

(** C6, as amended.  [getCommandLineArgs] returns the tool name followed by
    the output of the builder a real run of the same mode calls, on the
    same input document or archive, with the three placeholder output
    paths and with capability gating disabled, minus the first occurrence
    of the progress flag; in the evaluation modes the tailoring argument is
    the user tailoring path of the session, where a real run
    ([evaluateArgs]) passes the tailoring path when the session has
    tailoring and the empty path otherwise.  The preview starts no process
    and leaves the scanner object as it is. *)
Theorem getCommandLineArgs_preview (s : State) :
  let s' := exec (getCommandLineArgs env) s in
  let o := self s in
  eval (getCommandLineArgs env) s =
    removeOne "--progress"
      ("oscap" ::
       (if ScannerMode_eqb (mScannerMode o) SM_OFFLINE_REMEDIATION then
          buildOfflineRemediationArgs o (tmp_inputARFFile env)
            "/tmp/xccdf-results.xml" "/tmp/report.html" "/tmp/arf.xml" true
        else
          buildEvaluationArgs o (getOpenedFilePath (mSession o))
            (getUserTailoringFilePath (mSession o))
            "/tmp/xccdf-results.xml" "/tmp/report.html" "/tmp/arf.xml"
            (ScannerMode_eqb (mScannerMode o) SM_SCAN_ONLINE_REMEDIATION)
            true))
  /\ eval (evaluateArgs env) s =
       invocationShape env o
         (mResultFile (mLocalSession o)) (mReportFile (mLocalSession o))
         (mArfFile (mLocalSession o)) false
  /\ occurrences isSpawn (emitted s s') = 0%nat
  /\ self s' = o.
Proof.
  destruct s as [o fs l].
  unfold eval, exec, getCommandLineArgs, evaluateArgs, invocationShape,
    bind, member, emitted.
  cbn.
  destruct (ScannerMode_eqb (mScannerMode o) SM_OFFLINE_REMEDIATION); cbn;
    rewrite ?drop_app_length, ?drop_all; auto.
Qed.

(** Where the tailoring arguments agree, the preview is the real
    invocation with the three stated changes. *)
Lemma getCommandLineArgs_agrees (s : State) :
  getUserTailoringFilePath (mSession (self s)) =
    (if hasTailoring (mSession (self s))
     then getTailoringFilePath (mSession (self s)) else "") ->
  eval (getCommandLineArgs env) s = claimedCommandLineArgs env (self s).
Proof.
  intros Ht. destruct s as [o fs l]. cbn in Ht.
  unfold eval, getCommandLineArgs, claimedCommandLineArgs, invocationShape,
    bind, member.
  cbn. rewrite <- Ht.
  destruct (ScannerMode_eqb (mScannerMode o) SM_OFFLINE_REMEDIATION);
    reflexivity.
Qed.

(** C7. With an empty profile identifier the role generation emits the
    error notice and returns: no process is started and the file system,
    the destination role file included, is as before. *)
Theorem role_generation_without_profile (fix_type roleFile : string) (s : State) :
  getProfile (mSession (self s)) = "" ->
  let s' := exec (createRemediationRoleAfterEvaluate cfg env fix_type roleFile) s in
  emitted s s' =
    [ErrorMessage "Unable to get profile ID for the passed check. It is impossible to get the result ID without the profile ID, so no remediation role can be generated."]
  /\ occurrences isSpawn (emitted s s') = 0%nat
  /\ files s' = files s
  /\ files s' !! roleFile = files s !! roleFile.
Proof.
  intros Hprofile s'. subst s'.
  unfold exec, createRemediationRoleAfterEvaluate, bind, member, emitted.
  cbn. rewrite Hprofile. cbn. rewrite drop_app_length. auto.
Qed.

(** C8. With a profile identifier the role generation first creates the
    destination file with no content and then starts the tool: the process
    is started on a file system in which the role file is empty and every
    other file is as before, with the program and the argument vector
    [getOscapProgram] makes of [xccdf generate fix --fix-type <type>
    --output <path> --result-id <profile> <archive-path>], which ends with
    these ten arguments in this order. *)
Theorem role_generation_launch (fix_type roleFile : string) (s : State) :
  getProfile (mSession (self s)) <> "" ->
  let s' := exec (createRemediationRoleAfterEvaluate cfg env fix_type roleFile) s in
  let fixed := ["xccdf"; "generate"; "fix";
                "--fix-type"; fix_type;
                "--output"; roleFile;
                "--result-id"; getProfile (mSession (self s));
                mArfFile (mLocalSession (self s))] in
  let resolved := getOscapProgram cfg env fixed in
  (exists rest,
      emitted s s' =
        FileTruncate roleFile
        :: ProcStart (fst resolved) (snd resolved) (tmp_workingDir env)
        :: rest
      /\ occurrences isProcStart rest = 0%nat)
  /\ (exists prefix, snd resolved = prefix ++ fixed)
  /\ (exists atLaunch,
        atLaunch !! roleFile = Some []
        /\ (forall path, path <> roleFile ->
                         atLaunch !! path = files s !! path)
        /\ files s' =
             if proc_running (role_process env)
             then proc_writes (role_process env) (fst resolved) (snd resolved)
                              atLaunch
             else atLaunch).
Proof.
  intros Hprofile s' fixed resolved. subst s'.
  destruct (role_generation_effect cfg env fix_type roleFile s Hprofile)
    as (evs & E & P).
  rewrite E, emitted_mkState. cbn [files].
  change (roleArgs fix_type roleFile (getProfile (mSession (self s)))
            (mArfFile (mLocalSession (self s)))) with fixed.
  fold resolved. repeat split.
  - eexists. split; [reflexivity|].
    change (WaitForStarted :: InfoMessage (tr "Processing...") :: evs ++ ?t)
      with ([WaitForStarted; InfoMessage (tr "Processing...")] ++ evs ++ t).
    rewrite !occurrences_app.
    rewrite (occurrences_none isProcStart isRolePollEvent evs);
      [|intros []; simpl; congruence|exact P].
    destruct (proc_exitCode (role_process env) =? 1); reflexivity.
  - subst resolved. unfold getOscapProgram.
    destruct (SCAP_WORKBENCH_LOCAL_NICE_FOUND cfg); cbn [snd].
    + now exists ["-n"; number (SCAP_WORKBENCH_LOCAL_OSCAP_NICENESS cfg);
                  getPkexecOscapPath cfg env].
    + now exists [].
  - exists (<[roleFile := []]> (files s)). repeat split.
    + apply lookup_insert_eq.
    + intros path Hne. now apply lookup_insert_ne.
Qed.


(** C10. For every fix type and role file, the role generation leaves the
    scanner object as it is, the cancellation flag and the result, report
    and archive buffers included; it never signals completion, and the
    only signals it emits are informational and error notices. *)
Theorem role_generation_frame (fix_type roleFile : string) (s : State) :
  let s' := exec (createRemediationRoleAfterEvaluate cfg env fix_type roleFile) s in
  self s' = self s
  /\ mCancelRequested (self s') = mCancelRequested (self s)
  /\ buffers (self s') = buffers (self s)
  /\ occurrences isCompletion (emitted s s') = 0%nat
  /\ forallb (fun e => implb (isSignal e) (isNotice e)) (emitted s s') = true.
Proof.
  intros s'. subst s'.
  destruct (String.eqb_spec (getProfile (mSession (self s))) "") as [He|Hne].
  - unfold exec, createRemediationRoleAfterEvaluate, bind, member, emitted.
    cbn. rewrite He. cbn. rewrite drop_app_length. auto.
  - destruct (role_generation_effect cfg env fix_type roleFile s Hne)
      as (evs & E & P).
    rewrite E, emitted_mkState. cbn [self].
    repeat split.
    + change (WaitForStarted :: InfoMessage (tr "Processing...") :: evs ++ ?t)
        with ([WaitForStarted; InfoMessage (tr "Processing...")] ++ evs ++ t).
      change (?a :: ?b :: ?l ++ ?k) with ([a; b] ++ l ++ k).
      rewrite !occurrences_app.
      rewrite (occurrences_none isCompletion isRolePollEvent evs);
        [|intros []; simpl; congruence|exact P].
      destruct (proc_exitCode (role_process env) =? 1); reflexivity.
    + cbn. rewrite forallb_app. apply andb_true_intro. split.
      * clear E. induction evs as [|e evs IH]; [reflexivity|].
        simpl in P. apply andb_prop in P as [Pe P].
        simpl. rewrite (IH P). destruct e; simpl in *; congruence.
      * destruct (proc_exitCode (role_process env) =? 1); reflexivity.
Qed.

End Claims.

(** ** Concrete runs *)

Lemma evaluate_exit_code_decides_witness :
  (mDryRun (self scanState) = false
   /\ probe_exitCode successEnvironment = 0
   /\ prerequisites_met successEnvironment = true
   /\ proc_running (oscap_process successEnvironment) = true
   /\ mCancelRequested (self scanState) = false
   /\ existsb id (proc_ticks (oscap_process successEnvironment)) = false)
  /\ (exists pre,
        emitted scanState
          (exec (@evaluate sampleBuilder (sampleConfig true) successEnvironment)
                scanState) =
          pre ++ [ReadStdOut; WatchStdErr;
                  InfoMessage "The oscap tool has finished. Reading results...";
                  FileReadAll "/tmp/qt_temp.result";
                  FileReadAll "/tmp/qt_temp.report";
                  FileReadAll "/tmp/qt_temp.arf";
                  InfoMessage "Processing has been finished!";
                  Completion false])
     /\ mCancelRequested
          (self (exec (@evaluate sampleBuilder (sampleConfig true)
                                 successEnvironment) scanState)) = false
     /\ buffers
          (self (exec (@evaluate sampleBuilder (sampleConfig true)
                                 successEnvironment) scanState)) =
          (contents
             (files (exec (@evaluate sampleBuilder (sampleConfig true)
                                     successEnvironment) scanState))
             "/tmp/qt_temp.result",
           contents
             (files (exec (@evaluate sampleBuilder (sampleConfig true)
                                     successEnvironment) scanState))
             "/tmp/qt_temp.report",
           contents
             (files (exec (@evaluate sampleBuilder (sampleConfig true)
                                     successEnvironment) scanState))
             "/tmp/qt_temp.arf").
Proof.
  split.
  - repeat split.
  - apply (@evaluate_exit_code_decides sampleBuilder (sampleConfig true)
             successEnvironment scanState); reflexivity.
Defined.

(** C2 as stated fails: in the mid-scan cancel scenario the cancel request
    is seen on the first tick, the process exits with code 0, and
    [process.kill()] is reached twice. *)
Lemma evaluate_cancel_kills_twice :
  existsb id (proc_ticks (oscap_process cancelEnvironment)) = true
  /\ proc_running (oscap_process cancelEnvironment) = true
  /\ proc_exitCode (oscap_process cancelEnvironment) = 0
  /\ occurrences isKill
       (emitted scanState
          (exec (@evaluate sampleBuilder (sampleConfig true) cancelEnvironment)
                scanState)) = 2%nat
  /\ occurrences isKill
       (emitted scanState
          (exec (@evaluate sampleBuilder (sampleConfig true) cancelEnvironment)
                scanState)) <> 1%nat.
Proof.
  repeat split. vm_compute. discriminate.
Qed.

Lemma evaluate_cancel_during_poll_witness :
  (mDryRun (self scanState) = false
   /\ probe_exitCode lateCancelEnvironment = 0
   /\ prerequisites_met lateCancelEnvironment = true
   /\ proc_running (oscap_process lateCancelEnvironment) = true
   /\ mCancelRequested (self scanState) = false
   /\ proc_ticks (oscap_process lateCancelEnvironment)
      = [false] ++ true :: [false]
   /\ existsb id [false] = false)
  /\ List.filter isCompletion
       (emitted scanState
          (exec (@evaluate sampleBuilder (sampleConfig true)
                           lateCancelEnvironment) scanState))
     = [Completion true]
  /\ mCancelRequested
       (self (exec (@evaluate sampleBuilder (sampleConfig true)
                              lateCancelEnvironment) scanState)) = true
  /\ occurrences isFileRead
       (emitted scanState
          (exec (@evaluate sampleBuilder (sampleConfig true)
                           lateCancelEnvironment) scanState)) = 0%nat
  /\ buffers
       (self (exec (@evaluate sampleBuilder (sampleConfig true)
                              lateCancelEnvironment) scanState))
     = buffers (self scanState)
  /\ occurrences isKill
       (emitted scanState
          (exec (@evaluate sampleBuilder (sampleConfig true)
                           lateCancelEnvironment) scanState)) = 2%nat.
Proof.
  split.
  - repeat split.
  - apply (@evaluate_cancel_during_poll sampleBuilder (sampleConfig true)
             lateCancelEnvironment scanState [false] [false]); reflexivity.
Defined.


(** C5 as stated fails: with the variable set to the empty string the
    configured default is used, not the value of the variable. *)
Lemma getOscapProgram_empty_override :
  env_PKEXEC_OSCAP_PATH emptyOverrideEnvironment = Some ""
  /\ getOscapProgram (sampleConfig true) emptyOverrideEnvironment
       ["xccdf"; "eval"]
     = ("/usr/bin/nice",
        ["-n"; "10"; "/usr/libexec/scap-workbench-pkexec-oscap.sh";
         "xccdf"; "eval"])
  /\ claimedOscapProgram (sampleConfig true) emptyOverrideEnvironment
       ["xccdf"; "eval"]
     = ("/usr/bin/nice", ["-n"; "10"; ""; "xccdf"; "eval"])
  /\ getOscapProgram (sampleConfig true) emptyOverrideEnvironment
       ["xccdf"; "eval"]
     <> claimedOscapProgram (sampleConfig true) emptyOverrideEnvironment
          ["xccdf"; "eval"].
Proof.
  repeat split. vm_compute. discriminate.
Qed.

(** C6 as stated fails: for a session whose tailoring was not loaded from
    a user file, a real run passes the tailoring file and the preview does
    not. *)
Lemma getCommandLineArgs_tailoring_differs :
  eval (@getCommandLineArgs sampleBuilder successEnvironment) scanState
  = ["oscap"; "xccdf"; "eval";
     "--results"; "/tmp/xccdf-results.xml";
     "--results-arf"; "/tmp/arf.xml";
     "--report"; "/tmp/report.html";
     "/scan/doc.xml"]
  /\ @claimedCommandLineArgs sampleBuilder successEnvironment (self scanState)
     = ["oscap"; "xccdf"; "eval";
        "--tailoring-file"; "/tmp/qt_temp.tailoring.xml";
        "--results"; "/tmp/xccdf-results.xml";
        "--results-arf"; "/tmp/arf.xml";
        "--report"; "/tmp/report.html";
        "/scan/doc.xml"]
  /\ eval (@getCommandLineArgs sampleBuilder successEnvironment) scanState
     <> @claimedCommandLineArgs sampleBuilder successEnvironment
          (self scanState).
Proof.
  repeat split. vm_compute. discriminate.
Qed.

Lemma role_generation_without_profile_witness :
  getProfile (mSession (self noProfileState)) = ""
  /\ emitted noProfileState
       (exec (createRemediationRoleAfterEvaluate (sampleConfig true)
                successEnvironment "ansible" "/home/user/role.yml")
             noProfileState)
     = [ErrorMessage "Unable to get profile ID for the passed check. It is impossible to get the result ID without the profile ID, so no remediation role can be generated."]
  /\ occurrences isSpawn
       (emitted noProfileState
          (exec (createRemediationRoleAfterEvaluate (sampleConfig true)
                   successEnvironment "ansible" "/home/user/role.yml")
                noProfileState)) = 0%nat
  /\ files (exec (createRemediationRoleAfterEvaluate (sampleConfig true)
                    successEnvironment "ansible" "/home/user/role.yml")
                 noProfileState)
     = files noProfileState
  /\ files (exec (createRemediationRoleAfterEvaluate (sampleConfig true)
                    successEnvironment "ansible" "/home/user/role.yml")
                 noProfileState) !! "/home/user/role.yml"
     = files noProfileState !! "/home/user/role.yml".
Proof.
  split.
  - reflexivity.
  - apply (role_generation_without_profile (sampleConfig true)
             successEnvironment "ansible" "/home/user/role.yml"
             noProfileState).
    reflexivity.
Defined.

Lemma role_generation_launch_witness :
  getProfile (mSession (self scanState)) <> ""
  /\ (exists rest,
        emitted scanState
          (exec (createRemediationRoleAfterEvaluate (sampleConfig true)
                   successEnvironment "ansible" "/home/user/role.yml")
                scanState)
        = FileTruncate "/home/user/role.yml"
          :: ProcStart "/usr/bin/nice"
               ["-n"; "10"; "/usr/libexec/scap-workbench-pkexec-oscap.sh";
                "xccdf"; "generate"; "fix"; "--fix-type"; "ansible";
                "--output"; "/home/user/role.yml";
                "--result-id"; "xccdf_org_profile_1"; "/tmp/qt_temp.arf"]
               "/tmp/scap-workbench.wd"
          :: rest
        /\ occurrences isProcStart rest = 0%nat).
Proof.
  split.
  - discriminate.
  - apply (role_generation_launch (sampleConfig true) successEnvironment
             "ansible" "/home/user/role.yml" scanState).
    discriminate.
Defined.


(** ** The trace of a run *)

Section RunTrace.

Context `{ArgumentBuilder}.
Variable cfg : BuildConfig.
Variable env : Environment.

Lemma pollLoop_trace (ticks : list bool) :
  forall (pollInterval : Z) (s : State),
    exec (pollLoop pollInterval ticks) s =
      mkState (set_mCancelRequested
                 (mCancelRequested (self s) || existsb id ticks) (self s))
              (files s)
              (log s ++ pollTrace pollInterval (mCancelRequested (self s)) ticks).
Proof.
  induction ticks as [|t ticks IH]; intros i [o fs l].
  - cbn. rewrite orb_false_r, set_mCancelRequested_same. reflexivity.
  - destruct o as [dry mode c sess ls arf caps r1 r2 r3].
    unfold exec in *.
    destruct c, t; cbn [pollLoop]; unfold bind; cbn -[pollLoop pollTrace];
      rewrite IH; cbn; rewrite <- ?app_assoc; reflexivity.
Qed.

Lemma launchProcess_run (s : State) :
  launchProcess cfg env s =
    ((fst (launched cfg env (self s)), snd (launched cfg env (self s))),
     mkState (set_mCancelRequested (flagAtLaunch env (self s)) (self s))
             (launchFiles env (self s) (files s))
             (log s ++ launchTrace cfg env (self s))).
Proof.
  destruct s as [o fs l].
  unfold launchProcess, evaluateArgs, launchFiles, launchTrace,
    flagAtLaunch, bind, member, when.
  unfold launched, launchArgs, isOffline.
  cbn.
  destruct (ScannerMode_eqb (mScannerMode o) SM_OFFLINE_REMEDIATION);
    destruct (proc_running (oscap_process env)); cbn;
    rewrite ?orb_false_r, ?orb_true_r, ?set_mCancelRequested_same,
            <- ?app_assoc;
    reflexivity.
Qed.

Lemma reachesLaunch_true (o : Scanner) :
  reachesLaunch env o = true ->
  mDryRun o = false /\ probe_exitCode env = 0 /\ prerequisites_met env = true.
Proof.
  unfold reachesLaunch. intros Hr.
  apply andb_prop in Hr as [Hr Hp]. apply andb_prop in Hr as [Hd He].
  apply negb_true_iff in Hd. apply Z.eqb_eq in He. auto.
Qed.

(** The whole of a run that gets as far as starting the scan. *)
Lemma evaluate_run (s : State) :
  reachesLaunch env (self s) = true ->
  let o := self (probed cfg env s) in
  exec (evaluate cfg env) s =
    mkState (finishScanner env o (exitFiles cfg env o (files s)))
            (exitFiles cfg env o (files s))
            (log s ++ runTrace cfg env o ++ finishTrace env o).
Proof.
  intros Hr o. apply reachesLaunch_true in Hr as (Hdry & Hprobe & Hpre).
  rewrite (evaluate_main cfg env s Hdry Hprobe Hpre).
  unfold exec at 4, eval. rewrite launchProcess_run. cbn [fst snd].
  rewrite pollLoop_trace, processExited_effect. cbn [self files log].
  rewrite mCancelRequested_set, set_mCancelRequested_twice.
  fold o. change (files (probed cfg env s)) with (files s).
  change (flagAtLaunch env o || existsb id (proc_ticks (oscap_process env)))
    with (flagAtExit env o).
  change (if proc_running (oscap_process env)
          then proc_writes (oscap_process env)
                 (fst (launched (H := H) cfg env o))
                 (snd (launched (H := H) cfg env o))
                 (launchFiles env o (files s))
          else launchFiles env o (files s))
    with (exitFiles (H := H) cfg env o (files s)).
  assert (log (probed cfg env s) ++ launchTrace (H := H) cfg env o
           ++ pollTrace 100 (flagAtLaunch env o)
                (proc_ticks (oscap_process env))
          = log s ++ runTrace (H := H) cfg env o) as Hlog.
  { unfold probed, runTrace. cbn [log]. now rewrite <- !app_assoc. }
  rewrite <- (app_assoc (log (probed cfg env s))), Hlog. clear Hlog.
  unfold finishScanner, finishTrace.
  destruct (flagAtExit env o) eqn:Hc.
  - rewrite finishEvaluation_cancelled by reflexivity.
    cbn [self files log]. now rewrite <- app_assoc.
  - destruct (Z.eqb_spec (proc_exitCode (oscap_process env)) 1) as [Hx|Hx].
    + rewrite finishEvaluation_error by (reflexivity || assumption).
      cbn [self files log]. rewrite set_mCancelRequested_twice.
      now rewrite <- app_assoc.
    + rewrite finishEvaluation_success by (reflexivity || assumption).
      cbn [self files log]. now rewrite <- app_assoc.
Qed.

End RunTrace.

(** ** Facts about the traces *)

Lemma pollTrace_events (ticks : list bool) :
  forall (pollInterval : Z) (c : bool),
    forallb isPollEvent (pollTrace pollInterval c ticks) = true.
Proof.
  induction ticks as [|t ticks IH]; intros i c; [reflexivity|].
  cbn [pollTrace]. destruct (c || t); cbn; apply IH.
Qed.

Lemma pollTrace_kills (ticks : list bool) :
  forall (pollInterval : Z) (c : bool),
    occurrences isKill (pollTrace pollInterval c ticks) = killsIssued c ticks.
Proof.
  induction ticks as [|t ticks IH]; intros i c; [reflexivity|].
  cbn [pollTrace killsIssued]. destruct (c || t).
  - change (occurrences isKill
              ([WaitForFinished i false; ReadStdOut; WatchStdErr; ProcessEvents]
               ++ [InfoMessage "Cancellation was requested! Terminating scanning...";
                   ProcKill] ++ pollTrace 1000 true ticks)
            = (1 + killsIssued true ticks)%nat).
    rewrite !occurrences_app, IH. reflexivity.
  - change (occurrences isKill
              ([WaitForFinished i false; ReadStdOut; WatchStdErr; ProcessEvents]
               ++ pollTrace i false ticks)
            = (0 + killsIssued false ticks)%nat).
    rewrite occurrences_app, IH. reflexivity.
Qed.

Lemma pollTrace_pumps (ticks : list bool) :
  forall (pollInterval : Z) (c : bool),
    occurrences isPump (pollTrace pollInterval c ticks) = length ticks.
Proof.
  induction ticks as [|t ticks IH]; intros i c; [reflexivity|].
  cbn [pollTrace]. destruct (c || t); rewrite !occurrences_app, IH; reflexivity.
Qed.

Lemma pollTrace_waits_set (ticks : list bool) :
  List.filter isWait (pollTrace 1000 true ticks)
  = replicate (length ticks) (WaitForFinished 1000 false)
    ++ [WaitForFinished 1000 true].
Proof.
  induction ticks as [|t ticks IH]; [reflexivity|].
  cbn [pollTrace orb]. rewrite !List.filter_app, IH. reflexivity.
Qed.

Lemma pollTrace_waits_quiet (ticks : list bool) (pollInterval : Z) :
  existsb id ticks = false ->
  List.filter isWait (pollTrace pollInterval false ticks)
  = replicate (length ticks) (WaitForFinished pollInterval false)
    ++ [WaitForFinished pollInterval true].
Proof.
  induction ticks as [|t ticks IH]; [reflexivity|].
  destruct t; [discriminate|]. intros Hq.
  cbn [pollTrace orb]. rewrite List.filter_app, (IH Hq). reflexivity.
Qed.

Lemma pollTrace_waits_first (pre post : list bool) (pollInterval : Z) :
  existsb id pre = false ->
  List.filter isWait (pollTrace pollInterval false (pre ++ true :: post))
  = replicate (S (length pre)) (WaitForFinished pollInterval false)
    ++ replicate (length post) (WaitForFinished 1000 false)
    ++ [WaitForFinished 1000 true].
Proof.
  induction pre as [|t pre IH].
  - intros _. simpl. now rewrite pollTrace_waits_set.
  - destruct t; [discriminate|]. intros Hq.
    simpl. now rewrite (IH Hq).
Qed.

Lemma rolePollTrace_events (pollInterval : Z) (ticks : list bool) :
  forallb isRolePollEvent (rolePollTrace pollInterval ticks) = true.
Proof.
  unfold rolePollTrace. rewrite forallb_app.
  induction ticks as [|t ticks IH]; [reflexivity|]. exact IH.
Qed.

Lemma rolePollTrace_waits (pollInterval : Z) (ticks : list bool) :
  List.filter isWait (rolePollTrace pollInterval ticks)
  = replicate (length ticks) (WaitForFinished pollInterval false)
    ++ [WaitForFinished pollInterval true].
Proof.
  unfold rolePollTrace. rewrite List.filter_app.
  induction ticks as [|t ticks IH]; [reflexivity|].
  simpl. simpl in IH. now rewrite IH.
Qed.

Lemma roleLoop_trace (ticks : list bool) :
  forall (pollInterval : Z) (s : State),
    exec (roleLoop pollInterval ticks) s =
      mkState (self s) (files s) (log s ++ rolePollTrace pollInterval ticks).
Proof.
  induction ticks as [|t ticks IH]; intros i [o fs l]; [reflexivity|].
  unfold exec in *. cbn [roleLoop]. unfold bind. cbn -[roleLoop rolePollTrace].
  rewrite IH. cbn. rewrite <- !app_assoc. reflexivity.
Qed.

Lemma removeOne_count (x y : string) (l : list string) :
  count_occ string_dec (removeOne x l) y
  = if String.eqb y x then pred (count_occ string_dec l y)
    else count_occ string_dec l y.
Proof.
  induction l as [|z l IH]; cbn [removeOne count_occ].
  - now destruct (String.eqb y x).
  - destruct (String.eqb_spec z x) as [->|Hzx].
    + destruct (String.eqb_spec y x) as [->|Hyx].
      * now destruct (string_dec x x).
      * destruct (string_dec x y); congruence.
    + cbn [count_occ]. rewrite IH.
      destruct (String.eqb_spec y x) as [->|Hyx];
        destruct (string_dec z _); try congruence.
Qed.

Lemma killsIssued_quiet (ticks : list bool) :
  existsb id ticks = false -> killsIssued false ticks = 0%nat.
Proof.
  induction ticks as [|t ticks IH]; [reflexivity|].
  destruct t; [discriminate|]. exact IH.
Qed.

Lemma launchFailureMessage_text (program : string) :
  launchFailureMessage program
  = ("Failed to start local scanning process '"
     ++ program ++ "'. Perhaps the executable was not found?")%string.
Proof. reflexivity. Qed.

(** ** Further properties of the scanner *)

Section Further.

Context `{ArgumentBuilder}.
Variable cfg : BuildConfig.
Variable env : Environment.

Lemma launchTrace_counts (o : Scanner) :
  occurrences isProcStart (launchTrace cfg env o) = 1%nat
  /\ occurrences isSyncRun (launchTrace cfg env o) = 0%nat
  /\ occurrences isFileRead (launchTrace cfg env o) = 0%nat
  /\ occurrences isCompletion (launchTrace cfg env o) = 0%nat
  /\ occurrences isKill (launchTrace cfg env o) = 0%nat
  /\ occurrences isPump (launchTrace cfg env o) = 0%nat
  /\ List.filter isWait (launchTrace cfg env o) = []
  /\ List.filter isFileChange (launchTrace cfg env o)
     = (if isOffline o
        then [FileWrite (tmp_inputARFFile env) (mARFForRemediation o)]
        else [])
  /\ List.filter isError (launchTrace cfg env o)
     = (if proc_running (oscap_process env) then []
        else [ErrorMessage (launchFailureMessage (fst (launched cfg env o)))]).
Proof.
  unfold launchTrace.
  destruct (isOffline o); destruct (proc_running (oscap_process env));
    repeat split.
Qed.

Lemma pollTrace_filter_none (p : Event -> bool) (pollInterval : Z) (c : bool)
      (ticks : list bool) :
  (forall e, isPollEvent e = true -> p e = false) ->
  List.filter p (pollTrace pollInterval c ticks) = [].
Proof.
  intros Hp. apply occurrences_zero_filter.
  apply (occurrences_none p isPollEvent); [exact Hp|apply pollTrace_events].
Qed.

Lemma pollTrace_none (p : Event -> bool) (pollInterval : Z) (c : bool)
      (ticks : list bool) :
  (forall e, isPollEvent e = true -> p e = false) ->
  occurrences p (pollTrace pollInterval c ticks) = 0%nat.
Proof.
  intros Hp.
  apply (occurrences_none p isPollEvent); [exact Hp|apply pollTrace_events].
Qed.

Lemma runTrace_filter (p : Event -> bool) (o : Scanner) :
  List.filter p (runTrace cfg env o)
  = List.filter p [InfoMessage "Querying capabilities...";
                   SyncRun (SCAP_WORKBENCH_LOCAL_OSCAP_PATH cfg) ["-V"];
                   CheckPrerequisites]
    ++ List.filter p (launchTrace cfg env o)
    ++ List.filter p (pollTrace 100 (flagAtLaunch env o)
                                (proc_ticks (oscap_process env))).
Proof. unfold runTrace. now rewrite !List.filter_app. Qed.

Lemma reachesLaunch_false (o : Scanner) :
  reachesLaunch env o = false ->
  mDryRun o = true
  \/ (mDryRun o = false /\ probe_exitCode env <> 0)
  \/ (mDryRun o = false /\ probe_exitCode env = 0
      /\ prerequisites_met env = false).
Proof.
  unfold reachesLaunch. destruct (mDryRun o); [auto|].
  destruct (Z.eqb_spec (probe_exitCode env) 0); [|auto].
  destruct (prerequisites_met env); [discriminate|auto].
Qed.

(** X1. When the probe succeeds and the prerequisites are not met, the run
    stops there: the capabilities are stored, completion is signalled with
    [true], and no scan process is started; the buffers and the file system
    are as before. *)
Theorem evaluate_prerequisites_not_met (s : State) :
  mDryRun (self s) = false ->
  probe_exitCode env = 0 ->
  prerequisites_met env = false ->
  let s' := exec (evaluate cfg env) s in
  emitted s s' =
    [InfoMessage "Querying capabilities...";
     SyncRun (SCAP_WORKBENCH_LOCAL_OSCAP_PATH cfg) ["-V"];
     CheckPrerequisites;
     Completion true]
  /\ mCapabilities (self s') = Some (probe_stdOut env)
  /\ buffers (self s') = buffers (self s)
  /\ files s' = files s.
Proof.
  intros Hdry Hprobe Hpre s'. subst s'.
  rewrite (evaluate_prerequisites_failed cfg env s Hdry Hprobe Hpre).
  unfold probed. cbn [self files log].
  rewrite <- app_assoc, emitted_mkState. repeat split.
Qed.



(** The completion signals of a run, path by path. *)
Lemma evaluate_completion (s : State) :
  List.filter isCompletion (emitted s (exec (evaluate cfg env) s))
  = if reachesLaunch env (self s) then
      [Completion
         (flagAtExit env (self (probed cfg env s))
          || (proc_exitCode (oscap_process env) =? 1))]
    else if mDryRun (self s) then [Completion (mCancelRequested (self s))]
    else [Completion true].
Proof.
  destruct (reachesLaunch env (self s)) eqn:Hr.
  - rewrite (evaluate_run cfg env s Hr), emitted_mkState.
    set (o := self (probed cfg env s)).
    destruct (launchTrace_counts o) as (_ & _ & _ & LC & _).
    rewrite List.filter_app, runTrace_filter.
    rewrite (pollTrace_filter_none isCompletion)
      by (intros []; simpl; congruence).
    rewrite (occurrences_zero_filter _ _ LC).
    unfold finishTrace.
    destruct (flagAtExit env o);
      [|destruct (proc_exitCode (oscap_process env) =? 1)]; reflexivity.
  - destruct (reachesLaunch_false _ Hr) as [Hd|[[Hd Hp]|(Hd & Hp & Hq)]].
    + now rewrite (evaluate_dry cfg env s Hd), emitted_mkState, Hd.
    + now rewrite (evaluate_probe_failed cfg env s Hd Hp), emitted_mkState, Hd.
    + rewrite (evaluate_prerequisites_failed cfg env s Hd Hp Hq), Hd.
      unfold probed. cbn [self files log].
      now rewrite <- app_assoc, emitted_mkState.
Qed.

(** X4. A run that signals completion with [true] has read no artifact
    file and leaves the three buffers as they were, on every path: dry
    run, probe failure, unmet prerequisites, launch failure, cancellation
    or exit code 1. *)
Theorem evaluate_cancelled_reads_nothing (s : State) :
  List.filter isCompletion (emitted s (exec (evaluate cfg env) s))
  = [Completion true] ->
  let s' := exec (evaluate cfg env) s in
  occurrences isFileRead (emitted s s') = 0%nat
  /\ buffers (self s') = buffers (self s).
Proof.
  intros Hc s'. subst s'. rewrite evaluate_completion in Hc. revert Hc.
  destruct (reachesLaunch env (self s)) eqn:Hr.
  - rewrite (evaluate_run cfg env s Hr), emitted_mkState.
    set (o := self (probed cfg env s)).
    destruct (launchTrace_counts o) as (_ & _ & LR & _).
    unfold finishScanner, finishTrace. cbn [self].
    rewrite !occurrences_app. unfold runTrace.
    rewrite !occurrences_app, LR.
    rewrite (pollTrace_none isFileRead) by (intros []; simpl; congruence).
    destruct (flagAtExit env o); [intros _; split; reflexivity|].
    destruct (proc_exitCode (oscap_process env) =? 1);
      [intros _; split; reflexivity|].
    cbn. discriminate.
  - intros _.
    destruct (reachesLaunch_false _ Hr) as [Hd|[[Hd Hp]|(Hd & Hp & Hq)]].
    + rewrite (evaluate_dry cfg env s Hd), emitted_mkState. now split.
    + rewrite (evaluate_probe_failed cfg env s Hd Hp), emitted_mkState.
      now split.
    + rewrite (evaluate_prerequisites_failed cfg env s Hd Hp Hq).
      unfold probed. cbn [self files log].
      rewrite <- app_assoc, emitted_mkState. now split.
Qed.

(** X5. A run that is no dry run and signals completion with [false] has
    started the scan, seen no cancel request, and met an exit code other
    than 1; it has read the three artifact files once each, in the order
    result, report, archive, and each buffer holds exactly the bytes the
    process left in its file. *)
Theorem evaluate_not_cancelled_reads_all (s : State) :
  mDryRun (self s) = false ->
  List.filter isCompletion (emitted s (exec (evaluate cfg env) s))
  = [Completion false] ->
  let s' := exec (evaluate cfg env) s in
  let o := self (probed cfg env s) in
  let ls := mLocalSession (self s) in
  (reachesLaunch env (self s) = true
   /\ proc_running (oscap_process env) = true
   /\ existsb id (proc_ticks (oscap_process env)) = false
   /\ proc_exitCode (oscap_process env) <> 1)
  /\ List.filter isFileRead (emitted s s') =
       [FileReadAll (mResultFile ls); FileReadAll (mReportFile ls);
        FileReadAll (mArfFile ls)]
  /\ files s' =
       proc_writes (oscap_process env) (fst (launched cfg env o))
                   (snd (launched cfg env o))
                   (launchFiles env (self s) (files s))
  /\ buffers (self s') =
       (contents (files s') (mResultFile ls),
        contents (files s') (mReportFile ls),
        contents (files s') (mArfFile ls)).
Proof.
  intros Hd Hc s' o ls. subst s' ls.
  rewrite evaluate_completion, Hd in Hc. revert Hc.
  destruct (reachesLaunch env (self s)) eqn:Hr; [|discriminate].
  rewrite (evaluate_run cfg env s Hr), emitted_mkState. fold o.
  destruct (launchTrace_counts o) as (_ & _ & LR & _).
  unfold finishScanner, finishTrace. cbn [self files].
  destruct (flagAtExit env o) eqn:Hx; [discriminate|].
  destruct (Z.eqb_spec (proc_exitCode (oscap_process env)) 1) as [He|He];
    [discriminate|].
  intros _.
  unfold flagAtExit, flagAtLaunch in Hx.
  apply orb_false_elim in Hx as [Hx Hticks].
  apply orb_false_elim in Hx as [_ Hrun].
  apply negb_false_iff in Hrun.
  rewrite List.filter_app, runTrace_filter.
  rewrite (occurrences_zero_filter _ _ LR).
  rewrite (pollTrace_filter_none isFileRead)
    by (intros []; simpl; congruence).
  unfold exitFiles. rewrite Hrun.
  repeat split; assumption.
Qed.

(** X6. In offline remediation the archive to remediate is written to the
    temporary input file before the scan is started: the write is the
    event just before the process start, the process is started with what
    [getOscapProgram] makes of the offline-remediation arguments on that
    file, and the file system it is started on holds exactly the bytes of
    the archive under that name. *)
Theorem evaluate_offline_input (s : State) :
  reachesLaunch env (self s) = true ->
  mScannerMode (self s) = SM_OFFLINE_REMEDIATION ->
  let s' := exec (evaluate cfg env) s in
  let o := self (probed cfg env s) in
  let ls := mLocalSession (self s) in
  let resolved :=
    getOscapProgram cfg env
      (buildOfflineRemediationArgs o (tmp_inputARFFile env)
         (mResultFile ls) (mReportFile ls) (mArfFile ls) false) in
  let atLaunch :=
    <[tmp_inputARFFile env := mARFForRemediation (self s)]> (files s) in
  (exists rest,
      emitted s s' =
        [InfoMessage "Querying capabilities...";
         SyncRun (SCAP_WORKBENCH_LOCAL_OSCAP_PATH cfg) ["-V"];
         CheckPrerequisites;
         InfoMessage "Starting the oscap process...";
         FileWrite (tmp_inputARFFile env) (mARFForRemediation (self s));
         ProcStart (fst resolved) (snd resolved) (tmp_workingDir env)]
        ++ rest)
  /\ atLaunch !! tmp_inputARFFile env = Some (mARFForRemediation (self s))
  /\ files s' =
       if proc_running (oscap_process env)
       then proc_writes (oscap_process env) (fst resolved) (snd resolved)
                        atLaunch
       else atLaunch.
Proof.
  intros Hr Hmode s' o ls resolved atLaunch. subst s'.
  rewrite (evaluate_run cfg env s Hr), emitted_mkState. fold o.
  cbn [files].
  assert (isOffline o = true) as Ho
    by (unfold isOffline, o; cbn; now rewrite Hmode).
  unfold exitFiles, launchFiles, runTrace, launchTrace, launched, launchArgs.
  rewrite Ho. fold ls resolved. repeat split.
  - eexists. cbn. reflexivity.
  - apply lookup_insert_eq.
Qed.

(** X7. The capability probe is run exactly once unless the run is a dry
    run, and the scan process is started exactly once when the run is no dry
    run, the probe exits with code 0 and the prerequisites are met, and
    not at all otherwise. *)
Theorem evaluate_process_counts (s : State) :
  let s' := exec (evaluate cfg env) s in
  occurrences isSyncRun (emitted s s')
  = (if mDryRun (self s) then 0%nat else 1%nat)
  /\ occurrences isProcStart (emitted s s')
     = (if reachesLaunch env (self s) then 1%nat else 0%nat).
Proof.
  intros s'. subst s'.
  destruct (reachesLaunch env (self s)) eqn:Hr.
  - rewrite (evaluate_run cfg env s Hr), emitted_mkState.
    destruct (reachesLaunch_true env _ Hr) as (Hd & _ & _). rewrite Hd.
    set (o := self (probed cfg env s)).
    destruct (launchTrace_counts o) as (LS & LY & _).
    unfold runTrace. rewrite !occurrences_app, LS, LY.
    rewrite !pollTrace_none by (intros []; simpl; congruence).
    unfold finishTrace.
    destruct (flagAtExit env o);
      [|destruct (proc_exitCode (oscap_process env) =? 1)];
      split; reflexivity.
  - destruct (reachesLaunch_false _ Hr) as [Hd|[[Hd Hp]|(Hd & Hp & Hq)]].
    + rewrite (evaluate_dry cfg env s Hd), emitted_mkState, Hd. now split.
    + rewrite (evaluate_probe_failed cfg env s Hd Hp), emitted_mkState, Hd.
      now split.
    + rewrite (evaluate_prerequisites_failed cfg env s Hd Hp Hq), Hd.
      unfold probed. cbn [self files log].
      rewrite <- app_assoc, emitted_mkState. now split.
Qed.

(** X8. The only file [evaluate] itself ever writes is the temporary input
    archive of an offline remediation that gets as far as the launch; in
    every other run it creates, writes or truncates no file. *)
Theorem evaluate_file_changes (s : State) :
  let s' := exec (evaluate cfg env) s in
  List.filter isFileChange (emitted s s')
  = if reachesLaunch env (self s) && isOffline (self s)
    then [FileWrite (tmp_inputARFFile env) (mARFForRemediation (self s))]
    else [].
Proof.
  intros s'. subst s'.
  destruct (reachesLaunch env (self s)) eqn:Hr; cbn [andb].
  - rewrite (evaluate_run cfg env s Hr), emitted_mkState.
    set (o := self (probed cfg env s)).
    destruct (launchTrace_counts o) as (_ & _ & _ & _ & _ & _ & _ & LF & _).
    rewrite List.filter_app, runTrace_filter, LF.
    rewrite (pollTrace_filter_none isFileChange)
      by (intros []; simpl; congruence).
    change (isOffline o) with (isOffline (self s)).
    change (mARFForRemediation o) with (mARFForRemediation (self s)).
    unfold finishTrace.
    destruct (flagAtExit env o);
      [|destruct (proc_exitCode (oscap_process env) =? 1)];
      destruct (isOffline (self s)); reflexivity.
  - destruct (reachesLaunch_false _ Hr) as [Hd|[[Hd Hp]|(Hd & Hp & Hq)]].
    + now rewrite (evaluate_dry cfg env s Hd), emitted_mkState.
    + now rewrite (evaluate_probe_failed cfg env s Hd Hp), emitted_mkState.
    + rewrite (evaluate_prerequisites_failed cfg env s Hd Hp Hq).
      unfold probed. cbn [self files log].
      now rewrite <- app_assoc, emitted_mkState.
Qed.

(** X9. When the first cancel request arrives on some poll tick, every
    wait up to and including that tick is for 100 ms, and every wait after
    it, the one that reports the exit included, is for 1000 ms. *)
Theorem evaluate_poll_intervals (s : State) (pre post : list bool) :
  reachesLaunch env (self s) = true ->
  proc_running (oscap_process env) = true ->
  mCancelRequested (self s) = false ->
  proc_ticks (oscap_process env) = pre ++ true :: post ->
  existsb id pre = false ->
  let s' := exec (evaluate cfg env) s in
  List.filter isWait (emitted s s')
  = replicate (S (length pre)) (WaitForFinished 100 false)
    ++ replicate (length post) (WaitForFinished 1000 false)
    ++ [WaitForFinished 1000 true].
Proof.
  intros Hr Hrun Hc Hticks Hpre s'. subst s'.
  rewrite (evaluate_run cfg env s Hr), emitted_mkState.
  set (o := self (probed cfg env s)).
  destruct (launchTrace_counts o) as (_ & _ & _ & _ & _ & _ & LW & _).
  assert (flagAtLaunch env o = false) as Hl
    by (unfold flagAtLaunch, o; now rewrite mCancelRequested_probed, Hc, Hrun).
  rewrite List.filter_app, runTrace_filter, LW, Hl, Hticks.
  rewrite (pollTrace_waits_first pre post 100 Hpre).
  unfold finishTrace, flagAtExit. rewrite Hl, Hticks, existsb_first.
  cbn. now rewrite app_nil_r.
Qed.

(** X10. A run whose process starts and on which no cancel request is ever
    seen never calls [kill()]: it waits 100 ms on every tick and pumps the
    event queue once per tick. *)
Theorem evaluate_quiet_run (s : State) :
  reachesLaunch env (self s) = true ->
  proc_running (oscap_process env) = true ->
  mCancelRequested (self s) = false ->
  existsb id (proc_ticks (oscap_process env)) = false ->
  let s' := exec (evaluate cfg env) s in
  occurrences isKill (emitted s s') = 0%nat
  /\ occurrences isPump (emitted s s')
     = length (proc_ticks (oscap_process env))
  /\ List.filter isWait (emitted s s')
     = replicate (length (proc_ticks (oscap_process env)))
                 (WaitForFinished 100 false)
       ++ [WaitForFinished 100 true].
Proof.
  intros Hr Hrun Hc Hticks s'. subst s'.
  rewrite (evaluate_run cfg env s Hr), emitted_mkState.
  set (o := self (probed cfg env s)).
  destruct (launchTrace_counts o) as (_ & _ & _ & _ & LK & LP & LW & _).
  assert (flagAtLaunch env o = false) as Hl
    by (unfold flagAtLaunch, o; now rewrite mCancelRequested_probed, Hc, Hrun).
  rewrite List.filter_app, runTrace_filter, LW, Hl.
  rewrite (pollTrace_waits_quiet _ 100 Hticks).
  rewrite !occurrences_app. unfold runTrace.
  rewrite !occurrences_app, LK, LP, Hl, pollTrace_kills, pollTrace_pumps.
  rewrite killsIssued_quiet by exact Hticks.
  unfold finishTrace, flagAtExit. rewrite Hl, Hticks. cbn [orb].
  destruct (proc_exitCode (oscap_process env) =? 1); cbn;
    rewrite ?app_nil_r; repeat split; lia.
Qed.

(** X11. Cancellation masks the exit code: when the process has started and
    the flag is set by the time it exits, the run emits no error notice at
    all, exit code 1 included, and ends with the cancellation notice and
    the completion signal carrying [true]. *)
Theorem evaluate_cancel_masks_error (s : State) :
  reachesLaunch env (self s) = true ->
  proc_running (oscap_process env) = true ->
  mCancelRequested (self s)
  || existsb id (proc_ticks (oscap_process env)) = true ->
  let s' := exec (evaluate cfg env) s in
  occurrences isError (emitted s s') = 0%nat
  /\ exists before,
       emitted s s' =
         before ++ [InfoMessage "Scanning cancelled!"; Completion true].
Proof.
  intros Hr Hrun Hc s'. subst s'.
  rewrite (evaluate_run cfg env s Hr), emitted_mkState.
  set (o := self (probed cfg env s)).
  destruct (launchTrace_counts o) as (_ & _ & _ & _ & _ & _ & _ & _ & LE).
  assert (flagAtExit env o = true) as Hx.
  { unfold flagAtExit, flagAtLaunch, o.
    rewrite mCancelRequested_probed, Hrun. cbn [negb].
    now rewrite orb_false_r. }
  unfold finishTrace. rewrite Hx. split.
  - unfold occurrences.
    rewrite List.filter_app, runTrace_filter, LE, Hrun.
    now rewrite (pollTrace_filter_none isError)
      by (intros []; simpl; congruence).
  - now exists (runTrace cfg env o).
Qed.

(** X12. Whatever the environment, the resolved elevated-invocation path is
    not empty as long as the configured default is not. *)
Theorem getPkexecOscapPath_not_empty :
  SCAP_WORKBENCH_LOCAL_PKEXEC_OSCAP_PATH cfg <> "" ->
  getPkexecOscapPath cfg env <> "".
Proof.
  intros Hdefault. unfold getPkexecOscapPath, isEmpty.
  destruct (String.eqb_spec (qgetenv (env_PKEXEC_OSCAP_PATH env)) "");
    assumption.
Qed.

Lemma getCommandLineArgs_run (s : State) :
  getCommandLineArgs env s =
    (removeOne "--progress" ("oscap" :: previewArgs env (self s)),
     mkState (self s)
             (if isOffline (self s)
              then <[tmp_inputARFFile env := mARFForRemediation (self s)]>
                     (files s)
              else files s)
             (log s ++
              if isOffline (self s)
              then [FileWrite (tmp_inputARFFile env)
                              (mARFForRemediation (self s))]
              else [])).
Proof.
  destruct s as [o fs l].
  unfold getCommandLineArgs, previewArgs, isOffline, bind, member. cbn.
  destruct (ScannerMode_eqb (mScannerMode o) SM_OFFLINE_REMEDIATION); cbn;
    rewrite ?app_nil_r; reflexivity.
Qed.

(** X13. The preview always begins with the tool name, and it holds every
    argument as often as the builder produced it, except the progress
    flag, which it holds once less (and not at all when the builder
    produced it once or never). *)
Theorem getCommandLineArgs_progress_count (s : State) (x : string) :
  let out := eval (getCommandLineArgs env) s in
  let raw := "oscap" :: previewArgs env (self s) in
  hd_error out = Some "oscap"
  /\ count_occ string_dec out x
     = if String.eqb x "--progress"
       then pred (count_occ string_dec raw x)
       else count_occ string_dec raw x.
Proof.
  intros out raw. subst out raw. unfold eval.
  rewrite getCommandLineArgs_run. cbn [fst]. split.
  - reflexivity.
  - apply removeOne_count.
Qed.


Lemma role_generation_run (fix_type roleFile : string) (s : State) :
  getProfile (mSession (self s)) <> "" ->
  let resolved :=
    getOscapProgram cfg env
      (roleArgs fix_type roleFile (getProfile (mSession (self s)))
                (mArfFile (mLocalSession (self s)))) in
  exec (createRemediationRoleAfterEvaluate cfg env fix_type roleFile) s =
    mkState (self s)
            (if proc_running (role_process env)
             then proc_writes (role_process env) (fst resolved) (snd resolved)
                              (<[roleFile := []]> (files s))
             else <[roleFile := []]> (files s))
            (log s ++
             [FileTruncate roleFile;
              ProcStart (fst resolved) (snd resolved) (tmp_workingDir env);
              WaitForStarted;
              InfoMessage "Processing..."]
             ++ rolePollTrace 100 (proc_ticks (role_process env))
             ++ (if proc_exitCode (role_process env) =? 1
                 then [WatchStdErr;
                       ErrorMessage "There was an error in course of remediation role generation! Exit code of the 'oscap' process was 1."]
                 else [])).
Proof.
  intros Hprofile resolved. apply String.eqb_neq in Hprofile.
  unfold exec at 1. unfold createRemediationRoleAfterEvaluate.
  unfold bind at 1. unfold member at 1 2. cbn [fst snd]. unfold isEmpty.
  rewrite Hprofile.
  unfold bind. cbn -[roleLoop roleArgs getOscapProgram Z.eqb rolePollTrace].
  fold resolved.
  match goal with
  | |- context [roleLoop ?i ?t ?st] =>
      pose proof (roleLoop_trace t i st) as E
  end.
  unfold exec in E. rewrite E. cbn [self files log].
  unfold when.
  destruct (proc_exitCode (role_process env) =? 1);
    cbn -[rolePollTrace]; rewrite <- !app_assoc; cbn -[rolePollTrace];
    rewrite ?app_nil_r; reflexivity.
Qed.

Lemma role_generation_stop (fix_type roleFile : string) (s : State) :
  getProfile (mSession (self s)) = "" ->
  exec (createRemediationRoleAfterEvaluate cfg env fix_type roleFile) s =
    mkState (self s) (files s)
            (log s ++ [ErrorMessage "Unable to get profile ID for the passed check. It is impossible to get the result ID without the profile ID, so no remediation role can be generated."]).
Proof.
  intros Hprofile.
  unfold exec, createRemediationRoleAfterEvaluate, bind, member.
  cbn. rewrite Hprofile. reflexivity.
Qed.

(** X15. With a profile identifier, the role generation emits an error
    notice exactly when the exit code reads 1, whether or not the process
    ever reached the running state: a failure to start is not looked for,
    and with any other exit code the run ends without an error notice. *)
Theorem role_generation_error_notice (fix_type roleFile : string) (s : State) :
  getProfile (mSession (self s)) <> "" ->
  let s' := exec (createRemediationRoleAfterEvaluate cfg env fix_type roleFile) s in
  List.filter isError (emitted s s')
  = if proc_exitCode (role_process env) =? 1
    then [ErrorMessage "There was an error in course of remediation role generation! Exit code of the 'oscap' process was 1."]
    else [].
Proof.
  intros Hprofile s'. subst s'.
  rewrite (role_generation_run fix_type roleFile s Hprofile), emitted_mkState.
  rewrite !List.filter_app.
  rewrite (occurrences_zero_filter isError (rolePollTrace _ _)).
  - destruct (proc_exitCode (role_process env) =? 1); reflexivity.
  - apply (occurrences_none isError isRolePollEvent);
      [intros []; simpl; congruence|apply rolePollTrace_events].
Qed.

(** X16. The role generation cannot be cancelled: whatever the flag and
    whatever arrives while it polls, it never calls [kill()] and never
    pumps the event queue, and when it gets as far as starting the tool
    every one of its waits is for 100 ms. *)
Theorem role_generation_not_cancellable (fix_type roleFile : string) (s : State) :
  let s' := exec (createRemediationRoleAfterEvaluate cfg env fix_type roleFile) s in
  occurrences isKill (emitted s s') = 0%nat
  /\ occurrences isPump (emitted s s') = 0%nat
  /\ List.filter isWait (emitted s s')
     = if isEmpty (getProfile (mSession (self s))) then []
       else replicate (length (proc_ticks (role_process env)))
                      (WaitForFinished 100 false)
            ++ [WaitForFinished 100 true].
Proof.
  intros s'. subst s'. unfold isEmpty.
  destruct (String.eqb_spec (getProfile (mSession (self s))) "") as [He|Hne].
  - rewrite (role_generation_stop fix_type roleFile s He), emitted_mkState.
    repeat split.
  - rewrite (role_generation_run fix_type roleFile s Hne), emitted_mkState.
    rewrite !List.filter_app, !occurrences_app, rolePollTrace_waits.
    rewrite (occurrences_none isKill isRolePollEvent (rolePollTrace _ _)),
            (occurrences_none isPump isRolePollEvent (rolePollTrace _ _));
      try apply rolePollTrace_events;
      try (intros []; simpl; congruence).
    destruct (proc_exitCode (role_process env) =? 1); cbn;
      rewrite ?app_nil_r; repeat split.
Qed.

End Further.

(** X17. The session constructor creates its three temporary files in the
    order archive, report, result: afterwards each of them exists and is
    empty, every other file is as before, and the session holds the three
    names. *)
Theorem LocalOscapSession_new_files (arfName reportName resultName path : string)
        (s : State) :
  let s' := exec (LocalOscapSession_new arfName reportName resultName) s in
  let session := eval (LocalOscapSession_new arfName reportName resultName) s in
  emitted s s' =
    [FileTruncate arfName; FileTruncate reportName; FileTruncate resultName]
  /\ (mArfFile session, mReportFile session, mResultFile session)
     = (arfName, reportName, resultName)
  /\ files s' !! path
     = (if decide (path ∈ [arfName; reportName; resultName])
        then Some [] else files s !! path)
  /\ self s' = self s.
Proof.
  intros s' session. subst s' session. destruct s as [o fs l].
  unfold exec, eval, LocalOscapSession_new, bind. cbn.
  rewrite <- !app_assoc. cbn. unfold emitted. cbn [log].
  rewrite drop_app_length. repeat split.
  rewrite !lookup_insert.
  destruct (decide (path ∈ [arfName; reportName; resultName])) as [Hin|Hout].
  - rewrite !elem_of_cons, elem_of_nil in Hin.
    destruct Hin as [->|[->|[->|[]]]]; repeat case_decide; congruence.
  - rewrite !not_elem_of_cons in Hout. destruct Hout as (Ha & Hp & Hr & _).
    repeat case_decide; congruence.
Qed.


(** ** Further concrete runs *)

Lemma evaluate_prerequisites_not_met_witness :
  (mDryRun (self scanState) = false
   /\ probe_exitCode prerequisiteFailureEnvironment = 0
   /\ prerequisites_met prerequisiteFailureEnvironment = false)
  /\ emitted scanState
       (exec (@evaluate sampleBuilder (sampleConfig true)
                        prerequisiteFailureEnvironment) scanState)
     = [InfoMessage "Querying capabilities...";
        SyncRun "/usr/bin/oscap" ["-V"];
        CheckPrerequisites;
        Completion true].
Proof.
  split.
  - repeat split.
  - apply (@evaluate_prerequisites_not_met sampleBuilder (sampleConfig true)
             prerequisiteFailureEnvironment scanState); reflexivity.
Defined.



Lemma evaluate_cancelled_reads_nothing_witness :
  List.filter isCompletion
    (emitted scanState
       (exec (@evaluate sampleBuilder (sampleConfig true)
                        toolErrorEnvironment) scanState))
  = [Completion true]
  /\ occurrences isFileRead
       (emitted scanState
          (exec (@evaluate sampleBuilder (sampleConfig true)
                           toolErrorEnvironment) scanState)) = 0%nat
  /\ buffers
       (self (exec (@evaluate sampleBuilder (sampleConfig true)
                              toolErrorEnvironment) scanState))
     = buffers (self scanState).
Proof.
  split.
  - reflexivity.
  - apply (@evaluate_cancelled_reads_nothing sampleBuilder (sampleConfig true)
             toolErrorEnvironment scanState); reflexivity.
Defined.

Lemma evaluate_not_cancelled_reads_all_witness :
  (mDryRun (self scanState) = false
   /\ List.filter isCompletion
        (emitted scanState
           (exec (@evaluate sampleBuilder (sampleConfig true)
                            successEnvironment) scanState))
      = [Completion false])
  /\ List.filter isFileRead
       (emitted scanState
          (exec (@evaluate sampleBuilder (sampleConfig true)
                           successEnvironment) scanState))
     = [FileReadAll "/tmp/qt_temp.result"; FileReadAll "/tmp/qt_temp.report";
        FileReadAll "/tmp/qt_temp.arf"].
Proof.
  split.
  - repeat split.
  - apply (@evaluate_not_cancelled_reads_all sampleBuilder (sampleConfig true)
             successEnvironment scanState); reflexivity.
Defined.

Lemma evaluate_offline_input_witness :
  (reachesLaunch successEnvironment (self offlineState) = true
   /\ mScannerMode (self offlineState) = SM_OFFLINE_REMEDIATION)
  /\ exists rest,
       emitted offlineState
         (exec (@evaluate sampleBuilder (sampleConfig true)
                          successEnvironment) offlineState)
       = [InfoMessage "Querying capabilities...";
          SyncRun "/usr/bin/oscap" ["-V"];
          CheckPrerequisites;
          InfoMessage "Starting the oscap process...";
          FileWrite "/tmp/qt_temp.input" [];
          ProcStart "/usr/bin/nice"
            ["-n"; "10"; "/usr/libexec/scap-workbench-pkexec-oscap.sh";
             "xccdf"; "remediate";
             "--results"; "/tmp/qt_temp.result";
             "--results-arf"; "/tmp/qt_temp.arf";
             "--report"; "/tmp/qt_temp.report";
             "--progress"; "/tmp/qt_temp.input"]
            "/tmp/scap-workbench.wd"]
         ++ rest.
Proof.
  split.
  - repeat split.
  - apply (@evaluate_offline_input sampleBuilder (sampleConfig true)
             successEnvironment offlineState); reflexivity.
Defined.

Lemma evaluate_poll_intervals_witness :
  (reachesLaunch lateCancelEnvironment (self scanState) = true
   /\ proc_running (oscap_process lateCancelEnvironment) = true
   /\ mCancelRequested (self scanState) = false
   /\ proc_ticks (oscap_process lateCancelEnvironment)
      = [false] ++ true :: [false]
   /\ existsb id [false] = false)
  /\ List.filter isWait
       (emitted scanState
          (exec (@evaluate sampleBuilder (sampleConfig true)
                           lateCancelEnvironment) scanState))
     = [WaitForFinished 100 false; WaitForFinished 100 false;
        WaitForFinished 1000 false; WaitForFinished 1000 true].
Proof.
  split.
  - repeat split.
  - apply (@evaluate_poll_intervals sampleBuilder (sampleConfig true)
             lateCancelEnvironment scanState [false] [false]); reflexivity.
Defined.

Lemma evaluate_quiet_run_witness :
  (reachesLaunch successEnvironment (self scanState) = true
   /\ proc_running (oscap_process successEnvironment) = true
   /\ mCancelRequested (self scanState) = false
   /\ existsb id (proc_ticks (oscap_process successEnvironment)) = false)
  /\ occurrences isKill
       (emitted scanState
          (exec (@evaluate sampleBuilder (sampleConfig true)
                           successEnvironment) scanState)) = 0%nat.
Proof.
  split.
  - repeat split.
  - apply (@evaluate_quiet_run sampleBuilder (sampleConfig true)
             successEnvironment scanState); reflexivity.
Defined.

Lemma evaluate_cancel_masks_error_witness :
  (reachesLaunch cancelErrorEnvironment (self scanState) = true
   /\ proc_running (oscap_process cancelErrorEnvironment) = true
   /\ proc_exitCode (oscap_process cancelErrorEnvironment) = 1
   /\ mCancelRequested (self scanState)
      || existsb id (proc_ticks (oscap_process cancelErrorEnvironment)) = true)
  /\ occurrences isError
       (emitted scanState
          (exec (@evaluate sampleBuilder (sampleConfig true)
                           cancelErrorEnvironment) scanState)) = 0%nat.
Proof.
  split.
  - repeat split.
  - apply (@evaluate_cancel_masks_error sampleBuilder (sampleConfig true)
             cancelErrorEnvironment scanState); reflexivity.
Defined.

Lemma getPkexecOscapPath_not_empty_witness :
  SCAP_WORKBENCH_LOCAL_PKEXEC_OSCAP_PATH (sampleConfig true) <> ""
  /\ getPkexecOscapPath (sampleConfig true) emptyOverrideEnvironment <> "".
Proof.
  split.
  - discriminate.
  - apply (getPkexecOscapPath_not_empty (sampleConfig true)
             emptyOverrideEnvironment).
    discriminate.
Defined.

Lemma role_generation_error_notice_witness :
  (getProfile (mSession (self scanState)) <> ""
   /\ proc_running (role_process roleLaunchFailureEnvironment) = false)
  /\ List.filter isError
       (emitted scanState
          (exec (createRemediationRoleAfterEvaluate (sampleConfig true)
                   roleLaunchFailureEnvironment "ansible" "/home/user/role.yml")
                scanState))
     = [].
Proof.
  split.
  - split; [discriminate | reflexivity].
  - apply (role_generation_error_notice (sampleConfig true)
             roleLaunchFailureEnvironment "ansible" "/home/user/role.yml"
             scanState).
    discriminate.
Defined.
